(** * Zero-Shot-DST: the evaluation pass of [T5DST/T5.py]

    A shallow embedding of [evaluate_model] (T5.py, lines 126-194): the fold
    of the decoded generations into the [predictions] dictionary, the
    per-slot counters of [slot_logger], their finalisation into accuracy
    ratios, and the three JSON documents written at the end.

    The model, the tokenizer and the data loader are external: a batch is
    given as the list of its examples, each paired with the text decoded for
    it ([value_batch] of line 149, enumerated at line 151). *)

From Stdlib Require Import ZArith.
From Stdlib Require Import Floats.SpecFloat.
From stdpp Require Import gmap strings list fin_maps.

Open Scope Z_scope.

(** ** Python values and exceptions *)

Inductive pykey : Type :=
  | KStr (s : string)
  | KInt (z : Z).

Inductive py_exception : Type :=
  | KeyError (k : pykey)
  | IndexError
  | ZeroDivisionError
  | OverflowError
  | OtherError (msg : string).

(** An exception is never caught inside [evaluate_model]: it ends the pass,
    and the local state at that point is lost. *)
Inductive pyresult (A : Type) : Type :=
  | Ok (a : A)
  | Raise (e : py_exception).
Arguments Ok {A} a.
Arguments Raise {A} e.

#[global] Instance pyresult_ret : MRet pyresult := fun _ a => Ok a.
#[global] Instance pyresult_bind : MBind pyresult := fun _ _ f m =>
  match m with
  | Ok a => f a
  | Raise e => Raise e
  end.

(** Numbers held in a counter list: a Python [int] or a Python [float]
    (an IEEE 754 binary64 value, [prec = 53], [emax = 1024]). *)
Inductive pynum : Type :=
  | PyInt (z : Z)
  | PyFloat (f : spec_float).

Definition prec : Z := 53.
Definition emax : Z := 1024.

Definition is_infinite (f : spec_float) : bool :=
  match f with
  | S754_infinity _ => true
  | _ => false
  end.

Definition is_zero (f : spec_float) : bool :=
  match f with
  | S754_zero _ => true
  | _ => false
  end.

(** An integer as an exact (unrounded) dyadic number. *)
Definition exact_int (z : Z) : spec_float :=
  match z with
  | Z0 => S754_zero false
  | Zpos p => S754_finite false p 0
  | Zneg p => S754_finite true p 0
  end.

(** [float(z)]: the nearest binary64, ties to even; too large an integer
    raises [OverflowError]. *)
Definition float_of_int (z : Z) : pyresult spec_float :=
  let f := binary_normalize prec emax z 0 false in
  if is_infinite f then Raise OverflowError else Ok f.

Definition to_float (x : pynum) : pyresult spec_float :=
  match x with
  | PyInt z => float_of_int z
  | PyFloat f => Ok f
  end.

(** [x + y] on numbers. *)
Definition py_add (x y : pynum) : pyresult pynum :=
  match x, y with
  | PyInt a, PyInt b => Ok (PyInt (a + b))
  | _, _ =>
      f ← to_float x;
      g ← to_float y;
      Ok (PyFloat (SFadd prec emax f g))
  end.

(** [x / y], Python's true division.  On two integers the quotient is the
    correctly rounded binary64 of the exact ratio; a zero divisor raises
    [ZeroDivisionError] for integers and floats alike. *)
Definition py_truediv (x y : pynum) : pyresult pynum :=
  match x, y with
  | PyInt a, PyInt b =>
      if decide (b = 0) then Raise ZeroDivisionError
      else
        let q := SFdiv prec emax (exact_int a) (exact_int b) in
        if is_infinite q then Raise OverflowError else Ok (PyFloat q)
  | _, _ =>
      f ← to_float x;
      g ← to_float y;
      if is_zero g then Raise ZeroDivisionError
      else Ok (PyFloat (SFdiv prec emax f g))
  end.

(** ** Python lists indexed by a constant *)

Definition list_getitem {A} (l : list A) (i : nat) : pyresult A :=
  match l !! i with
  | Some x => Ok x
  | None => Raise IndexError
  end.

Definition list_setitem {A} (l : list A) (i : nat) (x : A) : pyresult (list A) :=
  if decide (i < length l)%nat then Ok (<[i:=x]> l) else Raise IndexError.

(** ** Python dictionaries with string keys, in insertion order

    [slot_logger] is iterated with [.values()] (line 173) and dumped as
    JSON, both in insertion order, so it is kept as an association list with
    each key at the position of its first insertion. *)

Section dict.
Context {V : Type}.

Fixpoint dict_get (d : list (string * V)) (k : string) : option V :=
  match d with
  | [] => None
  | (k', v) :: d' => if decide (k' = k) then Some v else dict_get d' k
  end.

(** [d[k]] *)
Definition dict_getitem (d : list (string * V)) (k : string) : pyresult V :=
  match dict_get d k with
  | Some v => Ok v
  | None => Raise (KeyError (KStr k))
  end.

(** [d[k] = v]: an existing key keeps its position. *)
Fixpoint dict_setitem (d : list (string * V)) (k : string) (v : V)
    : list (string * V) :=
  match d with
  | [] => [(k, v)]
  | (k', v') :: d' =>
      if decide (k' = k) then (k, v) :: d'
      else (k', v') :: dict_setitem d' k v
  end.

Definition dict_keys (d : list (string * V)) : list string := d.*1.
Definition dict_values (d : list (string * V)) : list V := d.*2.
End dict.

(** ** The data of the evaluation pass *)

(** Row [idx] of a batch: [batch["ID"][idx]], [batch["domains"][idx]],
    [batch["turn_id"][idx]], [batch["turn_belief"][idx]],
    [batch["slot_text"][idx]] and [batch["value_text"][idx]].  The domains
    of a row are a list, of which line 155 takes element [0]; the turn
    belief is the list of "slot-value" strings of the ground truth. *)
Record example : Type := {
  ex_ID : string;
  ex_domains : list string;
  ex_turn_id : Z;
  ex_turn_belief : list string;
  ex_slot_text : string;
  ex_value_text : string
}.

(** [{"turn_belief": ..., "pred_belief": [...]}] (lines 158-161). *)
Record turn : Type := {
  turn_belief : list string;
  pred_belief : list string
}.

(** [{"domain": ..., "turns": {...}}] (lines 154-156). *)
Record dialogue : Type := {
  domain : string;
  turns : gmap Z turn
}.

(** [predictions] is only read and written by key. *)
Abbreviation predictions_t := (gmap string dialogue).

(** One counter list per slot: [[total, hit, ratio]]. *)
Abbreviation slot_logger_t := (list (string * list pynum)).

(** ** The accumulator: lines 152-166 *)

Definition predictions_getitem (predictions : predictions_t) (dial_id : string)
    : pyresult dialogue :=
  match predictions !! dial_id with
  | Some dlg => Ok dlg
  | None => Raise (KeyError (KStr dial_id))
  end.

Definition turns_getitem (ts : gmap Z turn) (tid : Z) : pyresult turn :=
  match ts !! tid with
  | Some t => Ok t
  | None => Raise (KeyError (KInt tid))
  end.

(** [predictions[dial_id]["turns"][tid] = t]: the dialogue's own dictionary
    is updated, its ["domain"] stays. *)
Definition set_turn (dlg : dialogue) (tid : Z) (t : turn) : dialogue :=
  {| domain := domain dlg; turns := <[tid := t]> (turns dlg) |}.

(** Lines 153-156: a dialogue identifier seen for the first time gets a
    record with the first of the example's domains and no turns. *)
Definition new_dialogue (ex : example) (predictions : predictions_t)
    : pyresult predictions_t :=
  match predictions !! ex_ID ex with
  | Some _ => Ok predictions
  | None =>
      d ← list_getitem (ex_domains ex) 0;
      Ok (<[ex_ID ex := {| domain := d; turns := ∅ |}]> predictions)
  end.

(** Lines 157-161: a turn identifier seen for the first time in its
    dialogue gets the example's ground-truth belief and an empty list. *)
Definition new_turn (ex : example) (predictions : predictions_t)
    : pyresult predictions_t :=
  dlg ← predictions_getitem predictions (ex_ID ex);
  match turns dlg !! ex_turn_id ex with
  | Some _ => Ok predictions
  | None =>
      Ok (<[ex_ID ex :=
              set_turn dlg (ex_turn_id ex)
                {| turn_belief := ex_turn_belief ex; pred_belief := [] |}]>
            predictions)
  end.

(** [str(batch["slot_text"][idx]) + "-" + str(value)] *)
Definition slot_value (ex : example) (value : string) : string :=
  ex_slot_text ex +:+ "-" +:+ value.

(** Lines 163-166. *)
Definition append_pred (ex : example) (value : string)
    (predictions : predictions_t) : pyresult predictions_t :=
  if decide (value ≠ "none") then
    dlg ← predictions_getitem predictions (ex_ID ex);
    t ← turns_getitem (turns dlg) (ex_turn_id ex);
    Ok (<[ex_ID ex :=
            set_turn dlg (ex_turn_id ex)
              {| turn_belief := turn_belief t;
                 pred_belief := pred_belief t ++ [slot_value ex value] |}]>
          predictions)
  else Ok predictions.

Definition ingest (ex : example) (value : string) (predictions : predictions_t)
    : pyresult predictions_t :=
  predictions ← new_dialogue ex predictions;
  predictions ← new_turn ex predictions;
  append_pred ex value predictions.

(** ** The slot logger: lines 139 and 169-171 *)

(** [slot_log[i] += n] *)
Definition iadd (slot_log : list pynum) (i : nat) (n : Z)
    : pyresult (list pynum) :=
  x ← list_getitem slot_log i;
  y ← py_add x (PyInt n);
  list_setitem slot_log i y.

(** Line 139: [{slot_name: [0, 0, 0] for slot_name in ALL_SLOTS}]; every key
    owns a list of its own. *)
Definition init_slot_logger (ALL_SLOTS : list string) : slot_logger_t :=
  fold_left (fun d slot_name => dict_setitem d slot_name [PyInt 0; PyInt 0; PyInt 0])
    ALL_SLOTS [].

(** [slot_logger[slot][i] += 1]: the list found under the key is changed
    in place. *)
Definition bump (slot_logger : slot_logger_t) (slot : string) (i : nat)
    : pyresult slot_logger_t :=
  slot_log ← dict_getitem slot_logger slot;
  slot_log ← iadd slot_log i 1;
  Ok (dict_setitem slot_logger slot slot_log).

(** Lines 169-171. *)
Definition record (ex : example) (value : string) (slot_logger : slot_logger_t)
    : pyresult slot_logger_t :=
  slot_logger ←
    (if decide (value = ex_value_text ex)
     then bump slot_logger (ex_slot_text ex) 1      (* hit *)
     else Ok slot_logger);
  bump slot_logger (ex_slot_text ex) 0.             (* total *)

(** Line 174: [slot_log[2] = slot_log[1] / slot_log[0]]. *)
Definition set_ratio (slot_log : list pynum) : pyresult (list pynum) :=
  h ← list_getitem slot_log 1;
  t ← list_getitem slot_log 0;
  r ← py_truediv h t;
  list_setitem slot_log 2 r.

(** Lines 173-174: the loop over [slot_logger.values()], in order; the
    first failing division ends it. *)
Fixpoint finalize (slot_logger : slot_logger_t) : pyresult slot_logger_t :=
  match slot_logger with
  | [] => Ok []
  | (slot, slot_log) :: rest =>
      slot_log ← set_ratio slot_log;
      rest ← finalize rest;
      Ok ((slot, slot_log) :: rest)
  end.

(** ** The loops: lines 141-171 *)

Abbreviation state := (predictions_t * slot_logger_t)%type.

(** The body of the inner loop for one example and its decoded value. *)
Definition process (st : state) (xv : example * string) : pyresult state :=
  predictions ← ingest xv.1 xv.2 st.1;
  slot_logger ← record xv.1 xv.2 st.2;
  Ok (predictions, slot_logger).

Fixpoint run_batch (st : state) (batch : list (example * string))
    : pyresult state :=
  match batch with
  | [] => Ok st
  | xv :: batch => st ← process st xv; run_batch st batch
  end.

Fixpoint run_loader (st : state) (test_loader : list (list (example * string)))
    : pyresult state :=
  match test_loader with
  | [] => Ok st
  | batch :: test_loader => st ← run_batch st batch; run_loader st test_loader
  end.

(** ** The whole pass: lines 126-194 *)

Section evaluate_model.
(** [evaluate_metrics] lives in [evaluate.py]; only its call is here. *)
Context {Metric : Type}.
Variable evaluate_metrics :
  predictions_t → list string → pyresult (Metric * Metric * Metric).

Inductive document : Type :=
  | SlotAccDoc (slot_logger : slot_logger_t)
  | PredictionDoc (predictions : predictions_t)
  | MetricsDoc (evaluation_metrics : list (string * Metric)).

(** What the pass does to the outside, in order. *)
Inductive event : Type :=
  | Makedirs                                   (* line 131 *)
  | Call_evaluate_metrics                      (* line 182 *)
  | Print_line (text : string) (doc : document)     (* line 189 *)
  | Dump (file : string) (doc : document).     (* json.dump *)

Definition evaluate_model (results_exists : bool)
    (test_loader : list (list (example * string)))
    (ALL_SLOTS : list string) (prefix : string)
    : list event * pyresult predictions_t :=
  let tr0 := if results_exists then [] else [Makedirs] in
  match run_loader (∅, init_slot_logger ALL_SLOTS) test_loader with
  | Raise e => (tr0, Raise e)
  | Ok (predictions, slot_logger) =>
      match finalize slot_logger with
      | Raise e => (tr0, Raise e)
      | Ok slot_logger =>
          let tr1 :=
            tr0 ++ [Dump (prefix +:+ "_slot_acc.json") (SlotAccDoc slot_logger);
                    Dump (prefix +:+ "_prediction.json") (PredictionDoc predictions);
                    Call_evaluate_metrics] in
          match evaluate_metrics predictions ALL_SLOTS with
          | Raise e => (tr1, Raise e)
          | Ok (joint_acc_score, F1_score, turn_acc_score) =>
              let evaluation_metrics :=
                [("Joint Acc", joint_acc_score);
                 ("Turn Acc", turn_acc_score);
                 ("Joint F1", F1_score)] in
              (tr1 ++ [Print_line (prefix +:+ " result:")
                         (MetricsDoc evaluation_metrics);
                       Dump (prefix +:+ "_result.json")
                         (MetricsDoc evaluation_metrics)],
               Ok predictions)
          end
      end
  end.
End evaluate_model.
Arguments SlotAccDoc {Metric} slot_logger.
Arguments PredictionDoc {Metric} predictions.
Arguments MetricsDoc {Metric} evaluation_metrics.
Arguments Makedirs {Metric}.
Arguments Call_evaluate_metrics {Metric}.
Arguments Print_line {Metric} text doc.
Arguments Dump {Metric} file doc.

(** ** Observations used in the statements *)

(** The record of turn [tid] of dialogue [dial_id], when both were seen. *)
Definition lookup_turn (predictions : predictions_t) (dial_id : string)
    (tid : Z) : option turn :=
  dlg ← predictions !! dial_id; turns dlg !! tid.

(** The predicted belief of a turn; a turn not seen yet has none. *)
Definition pred_belief_of (predictions : predictions_t) (dial_id : string)
    (tid : Z) : list string :=
  default [] (pred_belief <$> lookup_turn predictions dial_id tid).

(** The record written at line 158. *)
Definition fresh_turn (ex : example) : turn :=
  {| turn_belief := ex_turn_belief ex; pred_belief := [] |}.

(** The effect of lines 163-166 on the turn's record. *)
Definition add_pred (ex : example) (value : string) (t : turn) : turn :=
  if decide (value ≠ "none")
  then {| turn_belief := turn_belief t;
          pred_belief := pred_belief t ++ [slot_value ex value] |}
  else t.

(** The examples of a loader, in the order they are processed. *)
Definition flatten (test_loader : list (list (example * string)))
    : list (example * string) :=
  concat test_loader.

(** How many processed examples carry [slot], and how many of those were
    generated exactly as their ground-truth value text. *)
Definition seen_total (slot : string) (done : list (example * string)) : Z :=
  Z.of_nat (length (filter (λ xv, ex_slot_text xv.1 = slot) done)).

Definition seen_hits (slot : string) (done : list (example * string)) : Z :=
  Z.of_nat
    (length
       (filter (λ xv, ex_slot_text xv.1 = slot ∧ xv.2 = ex_value_text xv.1)
          done)).

(** The counter list of [slot] while the loop runs, after [done]. *)
Definition tally (slot : string) (done : list (example * string))
    : list pynum :=
  [PyInt (seen_total slot done); PyInt (seen_hits slot done); PyInt 0].

(** Every key is present once and holds the tally of its slot. *)
Definition tallied (done : list (example * string))
    (slot_logger : slot_logger_t) : Prop :=
  NoDup (dict_keys slot_logger) ∧
  Forall (λ kv, kv.2 = tally kv.1 done) slot_logger.

(** The binary64 number written [0.7]: [0x1.6666666666666p-1]. *)
Definition float_0_7 : spec_float :=
  S754_finite false 6305039478318694 (-53).

(** The trace before the loop: the results directory is made if missing. *)
Definition setup_trace {Metric : Type} (results_exists : bool)
    : list (@event Metric) :=
  if results_exists then [] else [Makedirs].

(** The same example ingested [n] times in a row. *)
Fixpoint ingest_n (n : nat) (ex : example) (value : string)
    (predictions : predictions_t) : pyresult predictions_t :=
  match n with
  | O => Ok predictions
  | S n => predictions ← ingest ex value predictions; ingest_n n ex value predictions
  end.

(** Two readings that the code does not meet: the domain kept per turn at
    the turn's first sighting, and a ["none"] ingestion that never changes
    the accumulator at all. *)
Definition domain_stored_at_turn_sighting : Prop :=
  ∀ (ex : example) (value : string) (predictions predictions' : predictions_t)
    (d : string),
    lookup_turn predictions (ex_ID ex) (ex_turn_id ex) = None →
    head (ex_domains ex) = Some d →
    ingest ex value predictions = Ok predictions' →
    ∃ dlg, predictions' !! ex_ID ex = Some dlg ∧ domain dlg = d.

Definition none_leaves_state : Prop :=
  ∀ (ex : example) (predictions predictions' : predictions_t),
    ingest ex "none" predictions = Ok predictions' →
    predictions' = predictions.

(** ** Sample data *)

Definition ex_hotel_area : example :=
  {| ex_ID := "D1"; ex_domains := ["hotel"]; ex_turn_id := 0;
     ex_turn_belief := ["hotel-area-east"];
     ex_slot_text := "hotel-area"; ex_value_text := "east" |}.

Definition ex_hotel_stars : example :=
  {| ex_ID := "D1"; ex_domains := ["hotel"]; ex_turn_id := 0;
     ex_turn_belief := ["hotel-area-east"];
     ex_slot_text := "hotel-stars"; ex_value_text := "none" |}.

Definition ex_train_day : example :=
  {| ex_ID := "D1"; ex_domains := ["train"]; ex_turn_id := 1;
     ex_turn_belief := ["hotel-area-east"; "train-day-monday"];
     ex_slot_text := "train-day"; ex_value_text := "monday" |}.

(** [predictions] after [ex_hotel_area] was generated as ["east"]. *)
Definition seen_hotel_area : predictions_t :=
  {["D1" := {| domain := "hotel";
               turns := {[0 := {| turn_belief := ["hotel-area-east"];
                                  pred_belief := ["hotel-area-east"] |}]} |}]}.


(** A stand-in for [evaluate.py] in the closed examples. *)
Definition constant_metrics (predictions : predictions_t)
    (ALL_SLOTS : list string) : pyresult (nat * nat * nat) :=
  Ok (1%nat, 1%nat, 1%nat).


(** ** Observations on a whole pass *)

(** The entries that the examples [done] add, in order, to the predicted
    belief of turn [tid] of dialogue [dial_id]. *)
Definition generated (dial_id : string) (tid : Z)
    (done : list (example * string)) : list string :=
  (λ xv, slot_value xv.1 xv.2) <$>
    filter (λ xv, ex_ID xv.1 = dial_id ∧ ex_turn_id xv.1 = tid ∧ xv.2 ≠ "none")
      done.

(** The first example of [done] for a turn, and for a dialogue. *)
Definition first_of_turn (dial_id : string) (tid : Z)
    (done : list (example * string)) : option (example * string) :=
  head (filter (λ xv, ex_ID xv.1 = dial_id ∧ ex_turn_id xv.1 = tid) done).

Definition first_of_dialogue (dial_id : string)
    (done : list (example * string)) : option (example * string) :=
  head (filter (λ xv, ex_ID xv.1 = dial_id) done).

(** Line 155 never fails on [done]: an example whose dialogue is not among
    [seen] nor earlier in [done] carries a domain. *)
Fixpoint domains_ok (seen : gset string) (done : list (example * string))
    : Prop :=
  match done with
  | [] => True
  | xv :: done =>
      (ex_ID xv.1 ∈ seen ∨ ex_domains xv.1 ≠ []) ∧
      domains_ok ({[ex_ID xv.1]} ∪ seen) done
  end.

(** The sum of the totals held in a logger. *)
Definition logged_total (slot_logger : slot_logger_t) : Z :=
  foldr (λ kv acc, match kv.2 !! 0%nat with
                   | Some (PyInt t) => t + acc
                   | _ => acc
                   end) 0 slot_logger.

(** The files written by the [json.dump] calls of a trace, in order. *)
Definition dumped_files {Metric : Type} (trace : list (@event Metric))
    : list string :=
  omap (λ ev, match ev with Dump file _ => Some file | _ => None end) trace.

(** A list without its repetitions, each element where it first occurs. *)
Definition first_occurrences (l : list string) : list string :=
  fold_left (λ acc x, if decide (x ∈ acc) then acc else acc ++ [x]) l [].

(** The binary64 numbers [1.0] and [0.0]. *)
Definition float_1 : spec_float := S754_finite false 4503599627370496 (-52).
Definition float_0 : spec_float := S754_zero false.

(** * The rest of [T5DST/T5.py] *)

(** ** [fine_tune]: the domain of the checkpoint, lines 200-204 *)

(** [sub in s] on two strings: [sub] occurs somewhere in [s]. *)
Fixpoint str_contains (sub s : string) : bool :=
  String.prefix sub s ||
  match s with
  | EmptyString => false
  | String _ s' => str_contains sub s'
  end.

(** Line 200. *)
Definition fine_tune_domains : list string :=
  ["hotel"; "train"; "restaurant"; "attraction"; "taxi"].

(** Lines 201-203: [args["only_domain"]] is assigned once for every listed
    domain that occurs in [args["model_checkpoint"]]; the value it had in
    [args] is its starting value. *)
Definition pick_only_domain (model_checkpoint only_domain : string) : string :=
  fold_left
    (λ only_domain domain,
       if str_contains domain model_checkpoint then domain else only_domain)
    fine_tune_domains only_domain.

(** Line 204: [assert args["only_domain"] != "none"]; a failed assertion is
    [OtherError "AssertionError"]. *)
Definition check_only_domain (model_checkpoint only_domain : string)
    : pyresult string :=
  let only_domain := pick_only_domain model_checkpoint only_domain in
  if decide (only_domain ≠ "none") then Ok only_domain
  else Raise (OtherError "AssertionError").

(** Line 248: ["ratio_" + str(args["fewshot"]) + "_seed_" + str(args["seed"])],
    on the texts that [str] gives for the two numbers. *)
Definition fine_tune_ratio (fewshot seed : string) : string :=
  "ratio_" +:+ fewshot +:+ "_seed_" +:+ seed.

(** ** [train]: the name of the model, lines 53-66 and 89 *)

(** [os.path.join(a, b)] on POSIX paths. *)
Fixpoint ends_with_sep (s : string) : bool :=
  match s with
  | EmptyString => false
  | String c EmptyString => bool_decide (String c EmptyString = "/")
  | String _ s' => ends_with_sep s'
  end.

Definition path_join (a b : string) : string :=
  if String.prefix "/" b then b
  else if bool_decide (a = EmptyString) || ends_with_sep a then a +:+ b
  else a +:+ "/" +:+ b.

(** Lines 53-66, on the texts that [str] gives for [slot_lang], [lr],
    [n_epochs] and [seed]. *)
Definition train_model_name
    (model_checkpoint model_name except_domain slot_lang lr n_epochs seed : string)
    : string :=
  model_checkpoint +:+ model_name +:+ "_except_domain_" +:+ except_domain
    +:+ "_slotlang_" +:+ slot_lang +:+ "_lr_" +:+ lr
    +:+ "_epoch_" +:+ n_epochs +:+ "_seed_" +:+ seed.

(** Line 89: where [train] saves the model and the tokenizer. *)
Definition train_save_path
    (saving_dir model_checkpoint model_name except_domain slot_lang lr n_epochs seed
       : string) : string :=
  path_join saving_dir
    (train_model_name model_checkpoint model_name except_domain slot_lang lr
       n_epochs seed).

(** ** [fine_tune]: the evaluation at the end *)

Section callers.
Context {Metric : Type}.
Variable evaluate_metrics :
  predictions_t → list string → pyresult (Metric * Metric * Metric).
(** [prepare_data] lives in [data_loader.py]: with the other arguments
    fixed, it gives for [args["only_domain"]] the test loader, here with
    the decoded generations, and [ALL_SLOTS].  Loading and training the
    model are external. *)
Variable prepare_data :
  string → list (list (example * string)) * list string.

(** Lines 200-204 and 247-257: [fine_tune] checks the domain, prepares the
    data for it and evaluates under the prefix of line 248.  The trace is
    that of [evaluate_model]; the two [print] calls of [fine_tune] itself
    (lines 205 and 247), both after the assertion, are not recorded. *)
Definition fine_tune_evaluate (results_exists : bool)
    (model_checkpoint only_domain fewshot seed : string)
    : list event * pyresult predictions_t :=
  match check_only_domain model_checkpoint only_domain with
  | Raise e => ([], Raise e)
  | Ok only_domain =>
      let '(test_loader, ALL_SLOTS) := prepare_data only_domain in
      evaluate_model evaluate_metrics results_exists test_loader ALL_SLOTS
        (fine_tune_ratio fewshot seed)
  end.
End callers.

(** ** [DST_Seq2Seq.validation_epoch_end]: lines 38-45 *)

Section validation_epoch_end.
(** Losses are tensors of the model; their arithmetic is that of torch. *)
Context {Tensor Number : Type}.
Variable radd : Z → Tensor → Tensor.       (* [z + t] *)
Variable add : Tensor → Tensor → Tensor.   (* [t + u] *)
Variable div_int : Tensor → Z → Tensor.    (* [t / n] *)
Variable item : Tensor → Number.           (* [t.item()] *)

(** What [sum] holds: the integer it starts from, or a tensor. *)
Inductive py_sum : Type :=
  | SumInt (z : Z)
  | SumTensor (t : Tensor).

(** [sum(l)]: [0 + l[0] + l[1] + ...], from the left. *)
Definition sum_tensors (l : list Tensor) : py_sum :=
  fold_left
    (λ acc x, match acc with
              | SumInt z => SumTensor (radd z x)
              | SumTensor t => SumTensor (add t x)
              end)
    l (SumInt 0).

(** The dictionary returned at lines 40-45. *)
Record epoch_results : Type := {
  progress_bar_val_loss : Number;
  log_val_loss : Number;
  val_loss : Number
}.

(** [outputs] is given by the ["val_loss"] of each of its elements. *)
Definition validation_epoch_end (outputs : list Tensor)
    : pyresult epoch_results :=
  match sum_tensors outputs with
  | SumInt z =>
      (* an integer divided by an integer; a float has no [item] *)
      _ ← py_truediv (PyInt z) (PyInt (Z.of_nat (length outputs)));
      Raise (OtherError "AttributeError")
  | SumTensor t =>
      let val_loss_mean := div_int t (Z.of_nat (length outputs)) in
      Ok {| progress_bar_val_loss := item val_loss_mean;
            log_val_loss := item val_loss_mean;
            val_loss := item val_loss_mean |}
  end.
End validation_epoch_end.

(** * [T5DST/create_sgd_slot_descriptions.py] *)

(** [service["slots"]]: one list per column. *)
Record sgd_slots : Type := {
  is_categorical : list bool;
  name : list string;
  description : list string;
  possible_values : list (list string)
}.

Record service : Type := {
  service_name : string;
  slots : sgd_slots
}.

(** [{"description_human": ..., "values": ...}] (lines 14-17). *)
Record slot_entry : Type := {
  description_human : string;
  values : list string
}.

Abbreviation slot_desc_t := (list (string * slot_entry)).

(** A [for] loop whose body may raise. *)
Fixpoint py_for {S A : Type} (body : S → A → pyresult S) (l : list A) (s : S)
    : pyresult S :=
  match l with
  | [] => Ok s
  | x :: l => s ← body s x; py_for body l s
  end.

(** Lines 11-17: the body of the innermost loop. *)
Definition add_slot (sv : service) (slot_desc : slot_desc_t) (i : nat)
    : pyresult slot_desc_t :=
  nm ← list_getitem (name (slots sv)) i;
  description_human ← list_getitem (description (slots sv)) i;
  vals ← list_getitem (possible_values (slots sv)) i;
  Ok (dict_setitem slot_desc (service_name sv +:+ "-" +:+ nm)
        {| description_human := description_human; values := vals |}).

(** Line 10: [for i in range(len(service["slots"]["is_categorical"]))]. *)
Definition add_service (slot_desc : slot_desc_t) (sv : service)
    : pyresult slot_desc_t :=
  py_for (add_slot sv) (seq 0 (length (is_categorical (slots sv)))) slot_desc.

(** Line 9. *)
Definition add_dataset (slot_desc : slot_desc_t) (dataset : list service)
    : pyresult slot_desc_t :=
  py_for add_service dataset slot_desc.

(** Lines 7-17, over the splits that [load_dataset(...).values()] gives. *)
Definition build_slot_desc (datasets : list (list service))
    : pyresult slot_desc_t :=
  py_for add_dataset datasets [].

(** Lines 6-20: the file written and its content. *)
Definition main (datasets : list (list service))
    : pyresult (string * slot_desc_t) :=
  slot_desc ← build_slot_desc datasets;
  Ok ("./utils/slot_description.json", slot_desc).

(** ** Observations on the slot descriptions *)

(** The occurrence of [sub] in [s]. *)
Definition occurs_in (sub s : string) : Prop :=
  ∃ a b, s = a +:+ sub +:+ b.

(** The entry that index [i] of a service gives, when the three columns
    read at lines 11-13 reach that far. *)
Definition slot_at (sv : service) (i : nat) : option (string * slot_entry) :=
  nm ← name (slots sv) !! i;
  d ← description (slots sv) !! i;
  vals ← possible_values (slots sv) !! i;
  Some (service_name sv +:+ "-" +:+ nm,
        {| description_human := d; values := vals |}).

(** The entries that a service gives, one per index of [is_categorical]. *)
Definition service_entries (sv : service) : list (string * slot_entry) :=
  omap (slot_at sv) (seq 0 (length (is_categorical (slots sv)))).

(** All entries of the splits, in the order of the three loops. *)
Definition all_entries (datasets : list (list service))
    : list (string * slot_entry) :=
  concat (service_entries <$> concat datasets).

(** [d[k] = v] for every pair of a list, in order. *)
Definition dict_update {V : Type} (d : list (string * V))
    (kvs : list (string * V)) : list (string * V) :=
  fold_left (λ d kv, dict_setitem d kv.1 kv.2) kvs d.

(** A service whose columns are as long as [is_categorical], or longer. *)
Definition columns_ok (sv : service) : Prop :=
  (length (is_categorical (slots sv)) ≤ length (name (slots sv)))%nat ∧
  (length (is_categorical (slots sv)) ≤ length (description (slots sv)))%nat ∧
  (length (is_categorical (slots sv)) ≤ length (possible_values (slots sv)))%nat.

(** Sample data. *)
Definition sv_hotels : service :=
  {| service_name := "Hotels_1";
     slots := {| is_categorical := [true; false];
                 name := ["star_rating"; "destination"];
                 description := ["Star rating of the hotel"; "Location of the hotel"];
                 possible_values := [["1"; "2"; "3"]; []] |} |}.

Definition sv_hotels_short : service :=
  {| service_name := "Hotels_1";
     slots := {| is_categorical := [true; false];
                 name := ["star_rating"; "destination"];
                 description := ["Star rating of the hotel"];
                 possible_values := [["1"; "2"; "3"]; []] |} |}.

(** * Properties *)

(** ** The exception monad *)

Lemma bind_Ok {A B} (a : A) (f : A → pyresult B) : (Ok a ≫= f) = f a.
Proof. reflexivity. Qed.

Lemma bind_Raise {A B} (e : py_exception) (f : A → pyresult B) :
  (Raise e ≫= f) = Raise e.
Proof. reflexivity. Qed.

Lemma bind_Ok_inv {A B} (m : pyresult A) (f : A → pyresult B) (b : B) :
  m ≫= f = Ok b → ∃ a, m = Ok a ∧ f a = Ok b.
Proof. destruct m as [a|e]; [by exists a | done]. Qed.

(** ** Accuracy ratios never overflow

    With [0 <= hit <= total] and [0 < total] the quotient is at most one, so
    the rounded result is finite. *)

Section no_overflow.
Lemma digits2_pos_le (p : positive) (k : Z) :
  Z.pos p < 2 ^ k → Z.pos (digits2_pos p) ≤ k.
Proof.
  revert k. induction p as [p IH|p IH|]; intros k Hk; simpl.
  - assert (0 < k) by (destruct (Z.le_gt_cases k 0) as [Hle|]; [|done];
      pose proof (Z.pow_le_mono_r 2 k 0 ltac:(lia) Hle) as Hp; simpl in Hp; lia).
    replace k with (Z.succ (k - 1)) in Hk by lia.
    rewrite Z.pow_succ_r in Hk by lia.
    specialize (IH (k - 1) ltac:(lia)). lia.
  - assert (0 < k) by (destruct (Z.le_gt_cases k 0) as [Hle|]; [|done];
      pose proof (Z.pow_le_mono_r 2 k 0 ltac:(lia) Hle) as Hp; simpl in Hp; lia).
    replace k with (Z.succ (k - 1)) in Hk by lia.
    rewrite Z.pow_succ_r in Hk by lia.
    specialize (IH (k - 1) ltac:(lia)). lia.
  - destruct (Z.le_gt_cases k 0) as [Hle|]; [|lia].
    pose proof (Z.pow_le_mono_r 2 k 0 ltac:(lia) Hle) as Hp; simpl in Hp; lia.
Qed.

Lemma Zdigits2_le (m k : Z) : 0 ≤ m → 0 ≤ k → m < 2 ^ k → Zdigits2 m ≤ k.
Proof.
  intros Hm Hk Hlt. destruct m as [|p|p]; simpl; [done| |lia].
  by apply digits2_pos_le.
Qed.

Lemma shr_1_m (mrs : shr_record) :
  0 ≤ shr_m mrs → 0 ≤ shr_m (shr_1 mrs) ≤ shr_m mrs.
Proof.
  destruct mrs as [m r s]; simpl. intros Hm.
  destruct m as [|[p|p|]|p]; simpl; lia.
Qed.

Lemma iter_shr_1_m (p : positive) (mrs : shr_record) :
  0 ≤ shr_m mrs → 0 ≤ shr_m (SpecFloat.iter_pos shr_1 p mrs) ≤ shr_m mrs.
Proof.
  revert mrs. induction p as [p IH|p IH|]; intros mrs Hm; simpl.
  - pose proof (shr_1_m mrs Hm) as H1.
    pose proof (IH _ (proj1 H1)) as H2.
    pose proof (IH _ (proj1 H2)) as H3. lia.
  - pose proof (IH _ Hm) as H2.
    pose proof (IH _ (proj1 H2)) as H3. lia.
  - by apply shr_1_m.
Qed.

Lemma shr_record_of_loc_m (m : Z) (l : location) :
  shr_m (shr_record_of_loc m l) = m.
Proof. by destruct l as [|[]]. Qed.

Lemma shr_fexp_bounds (m e : Z) (l : location) mrs e' :
  0 ≤ m →
  shr_fexp prec emax m e l = (mrs, e') →
  0 ≤ shr_m mrs ≤ m ∧ e' = Z.max e (fexp prec emax (Zdigits2 m + e)).
Proof.
  intros Hm. unfold shr_fexp, shr.
  pose proof (shr_record_of_loc_m m l) as Hr.
  destruct (fexp prec emax (Zdigits2 m + e) - e) as [|n|n] eqn:Hn;
    intros [= <- <-].
  - rewrite Hr. lia.
  - pose proof (iter_shr_1_m n (shr_record_of_loc m l)) as Hi.
    rewrite Hr in Hi. lia.
  - rewrite Hr. lia.
Qed.

Lemma fexp_eq (x : Z) : fexp prec emax x = Z.max (x - 53) (-1074).
Proof. reflexivity. Qed.

Lemma round_nearest_even_le (m : Z) (l : location) :
  0 ≤ m → 0 ≤ round_nearest_even m l ≤ m + 1.
Proof. intros Hm. destruct l as [|[]]; simpl; try lia. destruct (Z.even m); lia. Qed.

Lemma binary_round_aux_finite (sx : bool) (mx ex : Z) (lx : location) (s : Z) :
  0 ≤ s ≤ 1074 → 0 ≤ mx ≤ 2 ^ s → ex = - s → 53 ≤ s →
  is_infinite (binary_round_aux prec emax sx mx ex lx) = false.
Proof.
  intros Hs Hmx -> Hs'. unfold binary_round_aux.
  destruct (shr_fexp prec emax mx (- s) lx) as [mrs1 e1] eqn:H1.
  apply shr_fexp_bounds in H1 as [Hm1 He1]; [|lia].
  set (m1 := round_nearest_even (shr_m mrs1) (loc_of_shr_record mrs1)).
  pose proof (round_nearest_even_le (shr_m mrs1) (loc_of_shr_record mrs1) (proj1 Hm1)) as Hr.
  fold m1 in Hr.
  destruct (shr_fexp prec emax m1 e1 loc_Exact) as [mrs2 e2] eqn:H2.
  apply shr_fexp_bounds in H2 as [Hm2 He2]; [|lia].
  assert (Hpow : 2 ^ s + 1 < 2 ^ (s + 1)).
  { rewrite Z.pow_add_r by lia. change (2 ^ 1) with 2.
    pose proof (Z.pow_le_mono_r 2 1 s ltac:(lia) ltac:(lia)) as Hp.
    change (2 ^ 1) with 2 in Hp. lia. }
  assert (Hd : Zdigits2 mx ≤ s + 1) by (apply Zdigits2_le; lia).
  assert (Hd1 : Zdigits2 m1 ≤ s + 1) by (apply Zdigits2_le; lia).
  rewrite fexp_eq in He1, He2.
  destruct (shr_m mrs2); [done| |done].
  destruct (Z.leb_spec e2 (emax - prec)); [done|].
  unfold emax, prec in *. lia.
Qed.

Lemma digits2_pos_gt (p : positive) : Z.pos p < 2 ^ Z.pos (digits2_pos p).
Proof.
  induction p as [p IH|p IH|]; simpl; [| |done];
    rewrite Pos2Z.inj_succ, Z.pow_succ_r by lia; lia.
Qed.

Lemma SFdiv_core_binary_bounds (mx my : positive) mz ez lz :
  (mx ≤ my)%positive →
  SFdiv_core_binary prec emax (Z.pos mx) 0 (Z.pos my) 0 = (mz, ez, lz) →
  ∃ s, 53 ≤ s ≤ 1074 ∧ ez = - s ∧ 0 ≤ mz ≤ 2 ^ s.
Proof.
  intros Hle. unfold SFdiv_core_binary.
  assert (Hd : Zdigits2 (Z.pos mx) ≤ Zdigits2 (Z.pos my)).
  { simpl. apply digits2_pos_le. pose proof (digits2_pos_gt my). lia. }
  rewrite !Z.add_0_r, Z.sub_diag, fexp_eq.
  set (e' := Z.min _ 0).
  assert (He' : -1074 ≤ e' ≤ -53) by (unfold e'; lia).
  destruct (0 - e') as [|s|s] eqn:Hs; [lia| |lia].
  rewrite Z.shiftl_mul_pow2 by lia.
  assert (Hpow : 0 < 2 ^ Z.pos s) by (apply Z.pow_pos_nonneg; lia).
  pose proof (Z.div_pos (Z.pos mx * 2 ^ Z.pos s) (Z.pos my)
                ltac:(lia) ltac:(lia)) as Hq0.
  pose proof (Z.div_le_upper_bound (Z.pos mx * 2 ^ Z.pos s) (Z.pos my)
                (2 ^ Z.pos s) ltac:(lia) ltac:(nia)) as Hq1.
  unfold Z.div in Hq0, Hq1.
  destruct (Z.div_eucl (Z.pos mx * 2 ^ Z.pos s) (Z.pos my)) as [q r].
  intros [= <- <- <-]. exists (Z.pos s). simpl in Hq0, Hq1. lia.
Qed.

Lemma truediv_counts (h t : Z) :
  0 ≤ h ≤ t → 0 < t → ∃ f, py_truediv (PyInt h) (PyInt t) = Ok (PyFloat f).
Proof.
  intros Hh Ht. unfold py_truediv. case_decide; [lia|].
  destruct t as [|my|my]; [lia| |lia].
  destruct h as [|mx|mx]; [by eexists| |lia].
  simpl exact_int. unfold SFdiv.
  destruct (SFdiv_core_binary prec emax (Z.pos mx) 0 (Z.pos my) 0)
    as [[mz ez] lz] eqn:Hcore.
  apply SFdiv_core_binary_bounds in Hcore as (s & Hs & -> & Hmz); [|lia].
  rewrite (binary_round_aux_finite _ mz (- s) lz s); [by eexists|lia..].
Qed.
End no_overflow.

(** ** The accumulator *)

Section accumulator.
Implicit Types (ex : example) (value : string) (predictions : predictions_t).

Lemma set_turn_set_turn (dlg : dialogue) (tid : Z) (t1 t2 : turn) :
  set_turn (set_turn dlg tid t1) tid t2 = set_turn dlg tid t2.
Proof. unfold set_turn; simpl. by rewrite insert_insert_eq. Qed.

(** [ingest] in closed form, by the four cases of lines 153 and 157. *)
Lemma ingest_eq ex value predictions :
  ingest ex value predictions =
    match predictions !! ex_ID ex with
    | None =>
        match ex_domains ex with
        | [] => Raise IndexError
        | d :: _ =>
            Ok (<[ex_ID ex :=
                    {| domain := d;
                       turns := {[ex_turn_id ex := add_pred ex value (fresh_turn ex)]} |}]>
                  predictions)
        end
    | Some dlg =>
        match turns dlg !! ex_turn_id ex with
        | None =>
            Ok (<[ex_ID ex :=
                    set_turn dlg (ex_turn_id ex) (add_pred ex value (fresh_turn ex))]>
                  predictions)
        | Some t =>
            if decide (value ≠ "none")
            then Ok (<[ex_ID ex := set_turn dlg (ex_turn_id ex) (add_pred ex value t)]>
                       predictions)
            else Ok predictions
        end
    end.
Proof.
  unfold ingest, new_dialogue.
  destruct (predictions !! ex_ID ex) as [dlg|] eqn:Hd.
  - rewrite ?bind_Ok. unfold new_turn, predictions_getitem. rewrite Hd, ?bind_Ok.
    destruct (turns dlg !! ex_turn_id ex) as [t|] eqn:Ht.
    + rewrite ?bind_Ok. unfold append_pred, add_pred, predictions_getitem, turns_getitem.
      case_decide; [|done]. by rewrite Hd, ?bind_Ok, Ht, ?bind_Ok.
    + rewrite ?bind_Ok. unfold append_pred, add_pred, predictions_getitem, turns_getitem.
      case_decide; [|done].
      rewrite lookup_insert_eq, ?bind_Ok. simpl.
      rewrite lookup_insert_eq, ?bind_Ok, insert_insert_eq.
      by rewrite set_turn_set_turn.
  - unfold list_getitem. destruct (ex_domains ex) as [|d ds]; [done|].
    simpl. rewrite ?bind_Ok.
    unfold new_turn, predictions_getitem. rewrite lookup_insert_eq, ?bind_Ok.
    simpl. rewrite lookup_empty, ?bind_Ok.
    unfold append_pred, add_pred, predictions_getitem, turns_getitem.
    case_decide.
    + rewrite lookup_insert_eq, ?bind_Ok. simpl.
      rewrite lookup_insert_eq, ?bind_Ok, !insert_insert_eq.
      unfold set_turn; simpl. by rewrite insert_insert_eq, insert_empty.
    + rewrite insert_insert_eq. unfold set_turn; simpl. by rewrite insert_empty.
Qed.

(** After an ingestion the example's turn holds its former record, or a
    fresh one, with the inclusion rule applied. *)
Lemma lookup_turn_ingest ex value predictions predictions' :
  ingest ex value predictions = Ok predictions' →
  lookup_turn predictions' (ex_ID ex) (ex_turn_id ex) =
    Some (add_pred ex value
            (default (fresh_turn ex)
               (lookup_turn predictions (ex_ID ex) (ex_turn_id ex)))).
Proof.
  rewrite ingest_eq. unfold lookup_turn.
  destruct (predictions !! ex_ID ex) as [dlg|] eqn:Hd; simpl.
  - destruct (turns dlg !! ex_turn_id ex) as [t|] eqn:Ht; simpl.
    + case_decide; intros [= <-].
      * rewrite lookup_insert_eq; simpl. by rewrite lookup_insert_eq.
      * rewrite Hd; simpl. rewrite Ht. unfold add_pred. by case_decide.
    + intros [= <-]. rewrite lookup_insert_eq; simpl. by rewrite lookup_insert_eq.
  - destruct (ex_domains ex) as [|d ds]; [done|]. intros [= <-].
    rewrite lookup_insert_eq; simpl. by rewrite lookup_singleton_eq.
Qed.

(** Every other turn, of this dialogue or of another, keeps its record. *)
Lemma lookup_turn_ingest_ne ex value predictions predictions' dial_id tid :
  ingest ex value predictions = Ok predictions' →
  (dial_id, tid) ≠ (ex_ID ex, ex_turn_id ex) →
  lookup_turn predictions' dial_id tid = lookup_turn predictions dial_id tid.
Proof.
  rewrite ingest_eq. unfold lookup_turn. intros Hi Hne.
  destruct (decide (dial_id = ex_ID ex)) as [->|Hd].
  - assert (tid ≠ ex_turn_id ex) by congruence.
    destruct (predictions !! ex_ID ex) as [dlg|] eqn:Hdlg; simpl.
    + destruct (turns dlg !! ex_turn_id ex) as [t|] eqn:Ht;
        [case_decide|]; simplify_eq; rewrite ?Hdlg, ?lookup_insert_eq; simpl;
        by rewrite ?lookup_insert_ne.
    + destruct (ex_domains ex) as [|d ds]; [done|]. simplify_eq.
      rewrite lookup_insert_eq; simpl. by rewrite lookup_singleton_ne.
  - destruct (predictions !! ex_ID ex) as [dlg|] eqn:Hdlg.
    + destruct (turns dlg !! ex_turn_id ex) as [t|] eqn:Ht;
        [case_decide|]; simplify_eq; by rewrite ?lookup_insert_ne.
    + destruct (ex_domains ex) as [|d ds]; [done|]. simplify_eq.
      by rewrite lookup_insert_ne.
Qed.

(** A dialogue that is there keeps its domain. *)
Lemma ingest_domain ex value predictions predictions' dial_id dlg :
  ingest ex value predictions = Ok predictions' →
  predictions !! dial_id = Some dlg →
  ∃ dlg', predictions' !! dial_id = Some dlg' ∧ domain dlg' = domain dlg.
Proof.
  rewrite ingest_eq. intros Hi Hdlg.
  destruct (decide (dial_id = ex_ID ex)) as [->|Hd].
  - rewrite Hdlg in Hi.
    destruct (turns dlg !! ex_turn_id ex) as [t|]; [case_decide|]; simplify_eq;
      rewrite ?lookup_insert_eq; eauto.
  - destruct (predictions !! ex_ID ex) as [dlg0|].
    + destruct (turns dlg0 !! ex_turn_id ex) as [t|]; [case_decide|]; simplify_eq;
        rewrite ?lookup_insert_ne by done; eauto.
    + destruct (ex_domains ex) as [|d ds]; [done|]. simplify_eq.
      rewrite lookup_insert_ne by done; eauto.
Qed.

(** Once the dialogue is there, an ingestion cannot fail. *)
Lemma ingest_seen_Ok ex value predictions :
  is_Some (predictions !! ex_ID ex) →
  ∃ predictions', ingest ex value predictions = Ok predictions'.
Proof.
  intros [dlg Hdlg]. rewrite ingest_eq, Hdlg.
  destruct (turns dlg !! ex_turn_id ex); [case_decide|]; eauto.
Qed.

Lemma ingest_Ok_seen ex value predictions predictions' :
  ingest ex value predictions = Ok predictions' →
  is_Some (lookup_turn predictions' (ex_ID ex) (ex_turn_id ex)).
Proof. intros Hi. rewrite (lookup_turn_ingest _ _ _ _ Hi). eauto. Qed.

Lemma lookup_turn_Some_dialogue predictions dial_id tid t :
  lookup_turn predictions dial_id tid = Some t →
  is_Some (predictions !! dial_id).
Proof. unfold lookup_turn. destruct (predictions !! dial_id); [eauto|done]. Qed.

Lemma pred_belief_add_pred ex value t :
  pred_belief (add_pred ex value t) =
    if decide (value ≠ "none")
    then pred_belief t ++ [slot_value ex value] else pred_belief t.
Proof. unfold add_pred. by case_decide. Qed.

Lemma turn_belief_add_pred ex value t :
  turn_belief (add_pred ex value t) = turn_belief t.
Proof. unfold add_pred. by case_decide. Qed.

Lemma pred_belief_of_ingest ex value predictions predictions' :
  ingest ex value predictions = Ok predictions' →
  pred_belief_of predictions' (ex_ID ex) (ex_turn_id ex) =
    if decide (value ≠ "none")
    then pred_belief_of predictions (ex_ID ex) (ex_turn_id ex)
           ++ [slot_value ex value]
    else pred_belief_of predictions (ex_ID ex) (ex_turn_id ex).
Proof.
  intros Hi. unfold pred_belief_of. rewrite (lookup_turn_ingest _ _ _ _ Hi).
  simpl. rewrite pred_belief_add_pred.
  by destruct (lookup_turn predictions (ex_ID ex) (ex_turn_id ex)).
Qed.
End accumulator.

(** ** Dictionaries in insertion order *)

Section dict_lemmas.
Context {V : Type}.
Implicit Types (d : list (string * V)) (k : string) (v : V).

Lemma dict_get_setitem_eq d k v : dict_get (dict_setitem d k v) k = Some v.
Proof.
  induction d as [|[k' v'] d IH]; simpl.
  - by rewrite decide_True.
  - destruct (decide (k' = k)) as [->|Hne]; simpl.
    + by rewrite decide_True.
    + by rewrite decide_False.
Qed.

Lemma dict_get_setitem_ne d k k' v :
  k ≠ k' → dict_get (dict_setitem d k v) k' = dict_get d k'.
Proof.
  intros Hne. induction d as [|[k0 v0] d IH]; simpl.
  - by rewrite decide_False.
  - destruct (decide (k0 = k)) as [->|Hne0]; simpl.
    + by rewrite !decide_False.
    + by rewrite IH.
Qed.

Lemma dict_setitem_setitem d k v1 v2 :
  dict_setitem (dict_setitem d k v1) k v2 = dict_setitem d k v2.
Proof.
  induction d as [|[k0 v0] d IH]; simpl.
  - by rewrite decide_True.
  - destruct (decide (k0 = k)) as [->|Hne]; simpl.
    + by rewrite decide_True.
    + by rewrite decide_False, IH.
Qed.

Lemma dict_get_None d k : dict_get d k = None ↔ k ∉ dict_keys d.
Proof.
  unfold dict_keys. induction d as [|[k0 v0] d IH]; simpl.
  - split; [intros _; apply not_elem_of_nil | done].
  - rewrite not_elem_of_cons. destruct (decide (k0 = k)) as [->|Hne].
    + split; [done | intros [? _]; done].
    + rewrite IH. split; [by intros ?; split | by intros [_ ?]].
Qed.

Lemma dict_get_Some_keys d k v : dict_get d k = Some v → k ∈ dict_keys d.
Proof.
  intros Hg. destruct (decide (k ∈ dict_keys d)) as [|Hn]; [done|].
  apply dict_get_None in Hn. congruence.
Qed.

Lemma dict_get_is_Some d k : k ∈ dict_keys d → is_Some (dict_get d k).
Proof.
  intros Hk. destruct (dict_get d k) eqn:Hg; [eauto|].
  by apply dict_get_None in Hg.
Qed.

Lemma dict_get_Some_elem d k v : dict_get d k = Some v → (k, v) ∈ d.
Proof.
  induction d as [|[k0 v0] d IH]; simpl; [done|].
  destruct (decide (k0 = k)) as [->|Hne].
  - intros [= ->]. apply list_elem_of_here.
  - intros Hg. apply list_elem_of_further. auto.
Qed.

Lemma dict_keys_setitem_Some d k v v0 :
  dict_get d k = Some v0 → dict_keys (dict_setitem d k v) = dict_keys d.
Proof.
  unfold dict_keys. induction d as [|[k0 v1] d IH]; simpl; [done|].
  destruct (decide (k0 = k)) as [->|Hne]; simpl; [done|].
  intros Hg. f_equal. by apply IH.
Qed.

Lemma dict_keys_setitem_None d k v :
  dict_get d k = None → dict_keys (dict_setitem d k v) = dict_keys d ++ [k].
Proof.
  unfold dict_keys. induction d as [|[k0 v1] d IH]; simpl; [done|].
  destruct (decide (k0 = k)) as [->|Hne]; simpl; [done|].
  intros Hg. f_equal. by apply IH.
Qed.

(** Setting a key that occurs once: its entry is replaced, the others may
    be re-read under a weaker property. *)
Lemma dict_setitem_Forall (P Q : string * V → Prop) d k v :
  NoDup (dict_keys d) →
  Forall P d →
  Q (k, v) →
  (∀ kv, kv.1 ≠ k → P kv → Q kv) →
  Forall Q (dict_setitem d k v).
Proof.
  unfold dict_keys. intros Hnd HP HQ HPQ.
  induction d as [|[k0 v0] d IH]; simpl.
  - by constructor.
  - apply NoDup_cons in Hnd as [Hk0 Hnd]. apply Forall_cons in HP as [HP0 HP].
    destruct (decide (k0 = k)) as [->|Hne].
    + constructor; [done|]. apply Forall_forall. intros [k1 v1] Hin.
      apply HPQ; [|by eapply Forall_forall in HP].
      simpl. intros ->. apply Hk0. apply list_elem_of_fmap. by exists (k, v1).
    + constructor; [by apply HPQ | by apply IH].
Qed.
End dict_lemmas.

(** ** The slot logger *)

Section slot_logger.
Implicit Types (ex : example) (value slot : string)
  (slot_logger : slot_logger_t) (done : list (example * string)).

Lemma iadd_int (slot_log : list pynum) (i : nat) (z n : Z) :
  slot_log !! i = Some (PyInt z) →
  iadd slot_log i n = Ok (<[i := PyInt (z + n)]> slot_log).
Proof.
  intros Hi. unfold iadd, list_getitem, list_setitem. rewrite Hi. simpl.
  apply lookup_lt_Some in Hi. by rewrite decide_True.
Qed.

Lemma bump_eq slot_logger slot i :
  bump slot_logger slot i =
    match dict_get slot_logger slot with
    | None => Raise (KeyError (KStr slot))
    | Some slot_log =>
        slot_log ← iadd slot_log i 1; Ok (dict_setitem slot_logger slot slot_log)
    end.
Proof.
  unfold bump, dict_getitem. by destruct (dict_get slot_logger slot).
Qed.

(** Lines 169-171 on a slot that has its counters. *)
Lemma record_eq ex value slot_logger (t h : Z) (r : pynum) :
  dict_get slot_logger (ex_slot_text ex) = Some [PyInt t; PyInt h; r] →
  record ex value slot_logger =
    Ok (dict_setitem slot_logger (ex_slot_text ex)
          [PyInt (t + 1);
           PyInt (if decide (value = ex_value_text ex) then h + 1 else h);
           r]).
Proof.
  intros Hg. unfold record. case_decide.
  - rewrite bump_eq, Hg. rewrite (iadd_int _ 1%nat h 1) by done. simpl.
    rewrite bump_eq, dict_get_setitem_eq.
    rewrite (iadd_int _ 0%nat t 1) by done. simpl.
    by rewrite dict_setitem_setitem.
  - simpl. rewrite bump_eq, Hg. by rewrite (iadd_int _ 0%nat t 1).
Qed.

(** Lines 169-171 on a slot that has no counters: the first subscript
    raises, at line 170 or at line 171. *)
Lemma record_missing ex value slot_logger :
  dict_get slot_logger (ex_slot_text ex) = None →
  record ex value slot_logger = Raise (KeyError (KStr (ex_slot_text ex))).
Proof.
  intros Hg. unfold record. case_decide; simpl; by rewrite bump_eq, Hg.
Qed.

Lemma seen_total_snoc slot done ex value :
  seen_total slot (done ++ [(ex, value)]) =
    if decide (ex_slot_text ex = slot)
    then seen_total slot done + 1 else seen_total slot done.
Proof.
  unfold seen_total. rewrite filter_app, length_app, filter_cons, filter_nil.
  simpl. case_decide; simpl; lia.
Qed.

Lemma seen_hits_snoc slot done ex value :
  seen_hits slot (done ++ [(ex, value)]) =
    if decide (ex_slot_text ex = slot)
    then (if decide (value = ex_value_text ex)
          then seen_hits slot done + 1 else seen_hits slot done)
    else seen_hits slot done.
Proof.
  unfold seen_hits. rewrite filter_app, length_app, filter_cons, filter_nil.
  simpl. repeat case_decide; simpl; try lia; tauto.
Qed.

Lemma seen_hits_le slot done : 0 ≤ seen_hits slot done ≤ seen_total slot done.
Proof.
  unfold seen_hits, seen_total. split; [lia|]. apply inj_le.
  induction done as [|xv done IH]; [done|].
  rewrite !filter_cons. repeat case_decide; simpl; try lia; tauto.
Qed.

Lemma tally_snoc_ne slot done ex value :
  ex_slot_text ex ≠ slot → tally slot (done ++ [(ex, value)]) = tally slot done.
Proof.
  intros Hne. unfold tally.
  by rewrite seen_total_snoc, seen_hits_snoc, !decide_False.
Qed.

Lemma tallied_keys_get done slot_logger slot :
  tallied done slot_logger →
  slot ∈ dict_keys slot_logger →
  dict_get slot_logger slot = Some (tally slot done).
Proof.
  intros [_ Hall] Hin. destruct (dict_get_is_Some _ _ Hin) as [l Hl].
  rewrite Hl. f_equal. apply dict_get_Some_elem in Hl.
  by eapply Forall_forall in Hall; [|done].
Qed.

(** One more example keeps the logger tallied, with the same keys. *)
Lemma record_tallied done ex value slot_logger :
  tallied done slot_logger →
  ex_slot_text ex ∈ dict_keys slot_logger →
  ∃ slot_logger',
    record ex value slot_logger = Ok slot_logger' ∧
    tallied (done ++ [(ex, value)]) slot_logger' ∧
    dict_keys slot_logger' = dict_keys slot_logger.
Proof.
  intros Ht Hin. pose proof (tallied_keys_get _ _ _ Ht Hin) as Hg.
  unfold tally in Hg. eexists. split; [by apply record_eq|].
  destruct Ht as [Hnd Hall]. split; [split|].
  - by erewrite dict_keys_setitem_Some.
  - eapply dict_setitem_Forall; [done..| |].
    + simpl. unfold tally.
      rewrite seen_total_snoc, seen_hits_snoc. by repeat case_decide.
    + intros [k l] Hk ->. simpl in *. by rewrite tally_snoc_ne.
  - by erewrite dict_keys_setitem_Some.
Qed.

Lemma init_slot_logger_aux (ALL_SLOTS : list string) slot_logger :
  tallied [] slot_logger →
  let slot_logger' :=
    fold_left (λ d slot_name, dict_setitem d slot_name [PyInt 0; PyInt 0; PyInt 0])
      ALL_SLOTS slot_logger in
  tallied [] slot_logger' ∧
  ∀ slot, slot ∈ dict_keys slot_logger' ↔
          slot ∈ dict_keys slot_logger ∨ slot ∈ ALL_SLOTS.
Proof.
  revert slot_logger. induction ALL_SLOTS as [|s ALL_SLOTS IH]; intros d Ht; simpl.
  - split; [done|]. intros slot. rewrite elem_of_nil. tauto.
  - assert (Ht' : tallied [] (dict_setitem d s [PyInt 0; PyInt 0; PyInt 0])).
    { destruct Ht as [Hnd Hall]. split.
      - destruct (dict_get d s) as [l|] eqn:Hg.
        + by erewrite dict_keys_setitem_Some.
        + rewrite dict_keys_setitem_None by done.
          apply NoDup_app. split; [done|]. split; [|apply NoDup_singleton].
          intros k Hk ->%list_elem_of_singleton. by apply dict_get_None in Hg.
      - eapply dict_setitem_Forall; [done..| |]; [done | by intros kv _ ?]. }
    destruct (IH _ Ht') as [Ht'' Hkeys]. split; [done|].
    intros slot. rewrite Hkeys, elem_of_cons.
    destruct (dict_get d s) as [l|] eqn:Hg.
    + erewrite dict_keys_setitem_Some by done.
      apply dict_get_Some_keys in Hg. split; [tauto|].
      intros [?|[->|?]]; tauto.
    + rewrite dict_keys_setitem_None, elem_of_app, list_elem_of_singleton by done.
      tauto.
Qed.

(** Line 139 gives every slot of [ALL_SLOTS], and no other key, the
    counters [[0, 0, 0]]. *)
Lemma init_slot_logger_tallied (ALL_SLOTS : list string) :
  tallied [] (init_slot_logger ALL_SLOTS) ∧
  ∀ slot, slot ∈ dict_keys (init_slot_logger ALL_SLOTS) ↔ slot ∈ ALL_SLOTS.
Proof.
  destruct (init_slot_logger_aux ALL_SLOTS []) as [Ht Hk].
  { split; [apply NoDup_nil_2 | apply Forall_nil_2]. }
  split; [done|]. intros slot. rewrite Hk. simpl. rewrite elem_of_nil. tauto.
Qed.
End slot_logger.

(** ** The loops *)

Section loops.
Implicit Types (st : state) (batch done : list (example * string)).

Lemma run_batch_app st batch1 batch2 :
  run_batch st (batch1 ++ batch2) =
    st ← run_batch st batch1; run_batch st batch2.
Proof.
  revert st. induction batch1 as [|xv batch1 IH]; intros st; simpl; [done|].
  destruct (process st xv) as [st1|e]; simpl; [apply IH | done].
Qed.

(** The batches are processed one after the other: only the order of the
    examples matters. *)
Lemma run_loader_flatten st (test_loader : list (list (example * string))) :
  run_loader st test_loader = run_batch st (flatten test_loader).
Proof.
  unfold flatten. revert st.
  induction test_loader as [|batch test_loader IH]; intros st; simpl; [done|].
  rewrite run_batch_app. destruct (run_batch st batch); simpl; [apply IH | done].
Qed.

Lemma process_Ok_inv st ex value st' :
  process st (ex, value) = Ok st' →
  ingest ex value st.1 = Ok st'.1 ∧ record ex value st.2 = Ok st'.2.
Proof.
  unfold process. simpl.
  destruct (ingest ex value st.1) as [p|]; simpl; [|done].
  destruct (record ex value st.2) as [l|]; simpl; [|done].
  by intros [= <-].
Qed.

(** While the loop runs the logger stays tallied over the examples done so
    far, under the keys it started with. *)
Lemma run_batch_tallied done st batch st' :
  tallied done st.2 →
  run_batch st batch = Ok st' →
  tallied (done ++ batch) st'.2 ∧ dict_keys st'.2 = dict_keys st.2.
Proof.
  revert done st. induction batch as [|[ex value] batch IH]; intros done st Ht; simpl.
  - intros [= <-]. by rewrite app_nil_r.
  - destruct (process st (ex, value)) as [st1|] eqn:Hp; simpl; [|done].
    apply process_Ok_inv in Hp as [_ Hr]. intros Hrun.
    destruct (decide (ex_slot_text ex ∈ dict_keys st.2)) as [Hin|Hout].
    + destruct (record_tallied done ex value _ Ht Hin) as (l & Hl & Ht1 & Hk).
      rewrite Hl in Hr. injection Hr as Hr. rewrite Hr in Ht1, Hk.
      destruct (IH _ _ Ht1 Hrun) as [Ht' Hk'].
      rewrite <- app_assoc in Ht'. simpl in Ht'. split; [done | congruence].
    + apply dict_get_None in Hout. rewrite record_missing in Hr by done. done.
Qed.

(** The state of the logger when the loop over the loader is over. *)
Lemma run_loader_tallied (ALL_SLOTS : list string) test_loader st :
  run_loader (∅, init_slot_logger ALL_SLOTS) test_loader = Ok st →
  tallied (flatten test_loader) st.2 ∧
  ∀ slot, slot ∈ dict_keys st.2 ↔ slot ∈ ALL_SLOTS.
Proof.
  rewrite run_loader_flatten. intros Hrun.
  destruct (init_slot_logger_tallied ALL_SLOTS) as [Ht Hk].
  destruct (run_batch_tallied [] (∅, init_slot_logger ALL_SLOTS) _ _ Ht Hrun)
    as [Ht' Hk'].
  split; [done|]. intros slot. by rewrite Hk'.
Qed.
End loops.

(** ** Finalisation *)

Section finalize.
Implicit Types (slot_logger : slot_logger_t) (slot_log : list pynum).

Lemma set_ratio_zero (h : Z) (r : pynum) :
  set_ratio [PyInt 0; PyInt h; r] = Raise ZeroDivisionError.
Proof. reflexivity. Qed.

Lemma set_ratio_counts (t h : Z) (r : pynum) :
  0 ≤ h ≤ t → 0 < t →
  ∃ f, py_truediv (PyInt h) (PyInt t) = Ok (PyFloat f) ∧
       set_ratio [PyInt t; PyInt h; r] = Ok [PyInt t; PyInt h; PyFloat f].
Proof.
  intros Hh Ht. destruct (truediv_counts h t Hh Ht) as [f Hf].
  exists f. split; [done|]. unfold set_ratio.
  change (list_getitem [PyInt t; PyInt h; r] 1) with (@Ok pynum (PyInt h)).
  change (list_getitem [PyInt t; PyInt h; r] 0) with (@Ok pynum (PyInt t)).
  by rewrite !bind_Ok, Hf, bind_Ok.
Qed.

Lemma finalize_cons (k : string) slot_log slot_logger :
  finalize ((k, slot_log) :: slot_logger) =
    slot_log ← set_ratio slot_log;
    rest ← finalize slot_logger;
    Ok ((k, slot_log) :: rest).
Proof. reflexivity. Qed.

(** The loop of lines 173-174 keeps keys and order and rewrites every
    counter list by [set_ratio]. *)
Lemma finalize_Ok_inv slot_logger slot_logger' :
  finalize slot_logger = Ok slot_logger' →
  Forall2 (λ kv kv', kv'.1 = kv.1 ∧ set_ratio kv.2 = Ok kv'.2)
    slot_logger slot_logger'.
Proof.
  revert slot_logger'.
  induction slot_logger as [|[k l] d IH]; intros d'; simpl.
  - intros [= <-]. constructor.
  - destruct (set_ratio l) as [l'|] eqn:Hl; simpl; [|done].
    destruct (finalize d) as [d1|]; simpl; [|done].
    intros [= <-]. constructor; [done | by apply IH].
Qed.

Lemma finalize_keys slot_logger slot_logger' :
  finalize slot_logger = Ok slot_logger' →
  dict_keys slot_logger' = dict_keys slot_logger.
Proof.
  intros Hf%finalize_Ok_inv. unfold dict_keys.
  induction Hf as [|[k l] [k' l'] d d' [Hk _] _ IH]; simpl in *; [done|].
  f_equal; [done | apply IH].
Qed.

Lemma finalize_get slot_logger slot_logger' (slot : string) slot_log :
  finalize slot_logger = Ok slot_logger' →
  dict_get slot_logger slot = Some slot_log →
  ∃ slot_log', set_ratio slot_log = Ok slot_log' ∧
               dict_get slot_logger' slot = Some slot_log'.
Proof.
  intros Hf%finalize_Ok_inv.
  induction Hf as [|[k l] [k' l'] d d' [Hk Hl] _ IH]; simpl in *; [done|].
  subst k'. destruct (decide (k = slot)) as [->|Hne].
  - intros [= <-]. eauto.
  - apply IH.
Qed.

(** A slot whose total is zero stops the loop with a division by zero,
    wherever it stands: the slots before it divide without error. *)
Lemma finalize_zero_total (done : list (example * string)) slot_logger :
  Forall (λ kv, kv.2 = tally kv.1 done) slot_logger →
  Exists (λ kv, kv.2 !! 0%nat = Some (PyInt 0)) slot_logger →
  finalize slot_logger = Raise ZeroDivisionError.
Proof.
  intros Hall Hex. induction slot_logger as [|[k l] d IH].
  - by apply Exists_nil in Hex.
  - apply Forall_cons in Hall as [Hl Hall]. simpl in Hl. subst l.
    rewrite finalize_cons. unfold tally at 1.
    destruct (decide (seen_total k done = 0)) as [Hz|Hnz].
    + by rewrite Hz, set_ratio_zero.
    + pose proof (seen_hits_le k done) as Hh.
      destruct (set_ratio_counts (seen_total k done) (seen_hits k done) (PyInt 0))
        as (f & _ & ->); [lia..|]. rewrite bind_Ok.
      apply Exists_cons in Hex as [Hz|Hex].
      * simpl in Hz. congruence.
      * by rewrite IH.
Qed.

(** With every total positive the loop ends normally. *)
Lemma finalize_tallied (done : list (example * string)) slot_logger :
  Forall (λ kv, kv.2 = tally kv.1 done) slot_logger →
  Forall (λ kv, 0 < seen_total kv.1 done) slot_logger →
  ∃ slot_logger', finalize slot_logger = Ok slot_logger'.
Proof.
  intros Hall Hpos. induction slot_logger as [|[k l] d IH]; [by eexists|].
  apply Forall_cons in Hall as [Hl Hall]. apply Forall_cons in Hpos as [Hp Hpos].
  simpl in Hl, Hp. subst l. pose proof (seen_hits_le k done) as Hh.
  rewrite finalize_cons. unfold tally at 1.
  destruct (set_ratio_counts (seen_total k done) (seen_hits k done) (PyInt 0))
    as (f & _ & ->); [lia..|]. rewrite bind_Ok.
  destruct (IH Hall Hpos) as [d' ->]. by eexists.
Qed.
End finalize.

(** * The claims *)

(** ** Accumulator *)

Lemma add_pred_fresh_turn (ex : example) (value : string) :
  add_pred ex value (fresh_turn ex) =
    {| turn_belief := ex_turn_belief ex;
       pred_belief := if decide (value = "none") then []
                      else [ex_slot_text ex +:+ "-" +:+ value] |}.
Proof.
  unfold add_pred, fresh_turn, slot_value.
  destruct (decide (value = "none")) as [->|Hne].
  - by rewrite decide_False by (by intros ?).
  - by rewrite decide_True.
Qed.

(** An ingestion fails only at line 155, on a new dialogue whose example
    carries no domain. *)
Lemma ingest_Ok (ex : example) (value : string) (predictions : predictions_t) :
  is_Some (predictions !! ex_ID ex) ∨ ex_domains ex ≠ [] →
  ∃ predictions', ingest ex value predictions = Ok predictions'.
Proof.
  intros [Hseen|Hdom]; [by apply ingest_seen_Ok|].
  rewrite ingest_eq. destruct (predictions !! ex_ID ex) as [dlg|].
  - destruct (turns dlg !! ex_turn_id ex); [case_decide|]; eauto.
  - destruct (ex_domains ex); [done | eauto].
Qed.

(** An ingestion only ever extends predicted beliefs and never touches a
    stored ground truth. *)
Lemma ingest_keeps_turn (ex : example) (value : string)
    (predictions predictions' : predictions_t) (dial_id : string) (tid : Z)
    (t : turn) :
  ingest ex value predictions = Ok predictions' →
  lookup_turn predictions dial_id tid = Some t →
  ∃ t', lookup_turn predictions' dial_id tid = Some t' ∧
        turn_belief t' = turn_belief t ∧
        pred_belief t `prefix_of` pred_belief t'.
Proof.
  intros Hi Ht.
  destruct (decide ((dial_id, tid) = (ex_ID ex, ex_turn_id ex))) as [[= -> ->]|Hne].
  - rewrite (lookup_turn_ingest _ _ _ _ Hi), Ht. simpl. eexists. split; [done|].
    rewrite turn_belief_add_pred, pred_belief_add_pred. split; [done|].
    case_decide; [by apply prefix_app_r | done].
  - rewrite (lookup_turn_ingest_ne _ _ _ _ _ _ Hi Hne). eauto.
Qed.

Lemma list_neq_app_singleton {A} (l : list A) (x : A) : l ≠ l ++ [x].
Proof.
  intros Heq. apply (f_equal length) in Heq. rewrite length_app in Heq.
  simpl in Heq. lia.
Qed.

(** C1. For every ingested example, the string slot_name + "-" +
    generated_value is appended to the predicted belief of the example's
    turn if and only if the generated value is not exactly the string
    "none"; when it is "none", the predicted belief is left unchanged. *)
Theorem C1_inclusion_rule (ex : example) (value : string)
    (predictions : predictions_t) :
  is_Some (predictions !! ex_ID ex) ∨ ex_domains ex ≠ [] →
  ∃ predictions',
    ingest ex value predictions = Ok predictions' ∧
    (pred_belief_of predictions' (ex_ID ex) (ex_turn_id ex) =
       pred_belief_of predictions (ex_ID ex) (ex_turn_id ex)
         ++ [ex_slot_text ex +:+ "-" +:+ value]
     ↔ value ≠ "none") ∧
    (value = "none" →
     pred_belief_of predictions' (ex_ID ex) (ex_turn_id ex) =
       pred_belief_of predictions (ex_ID ex) (ex_turn_id ex)).
Proof.
  intros Hpre. destruct (ingest_Ok ex value predictions Hpre) as [predictions' Hi].
  exists predictions'. split; [done|].
  rewrite (pred_belief_of_ingest _ _ _ _ Hi).
  destruct (decide (value ≠ "none")) as [Hne|Heq]; split; try done.
  split; [|done]. intros Habs. by apply list_neq_app_singleton in Habs.
Qed.

Lemma C1_witness :
  (is_Some ((∅ : predictions_t) !! ex_ID ex_hotel_area) ∨
   ex_domains ex_hotel_area ≠ []) ∧
  ∃ predictions',
    ingest ex_hotel_area "east" ∅ = Ok predictions' ∧
    (pred_belief_of predictions' (ex_ID ex_hotel_area) (ex_turn_id ex_hotel_area) =
       pred_belief_of ∅ (ex_ID ex_hotel_area) (ex_turn_id ex_hotel_area)
         ++ [ex_slot_text ex_hotel_area +:+ "-" +:+ "east"]
     ↔ "east" ≠ "none") ∧
    ("east" = "none" →
     pred_belief_of predictions' (ex_ID ex_hotel_area) (ex_turn_id ex_hotel_area) =
       pred_belief_of ∅ (ex_ID ex_hotel_area) (ex_turn_id ex_hotel_area)).
Proof.
  assert (H : is_Some ((∅ : predictions_t) !! ex_ID ex_hotel_area) ∨
              ex_domains ex_hotel_area ≠ [])
    by (right; simpl; intros Heq; discriminate Heq).
  split; [exact H | exact (C1_inclusion_rule ex_hotel_area "east" ∅ H)].
Defined.

(** Scenario A and scenario B of the specification. *)
Example scenario_A : ingest ex_hotel_area "east" ∅ = Ok seen_hotel_area.
Proof. vm_compute; reflexivity. Qed.

Example scenario_B :
  ∃ predictions,
    ingest ex_hotel_area "none" ∅ = Ok predictions ∧
    pred_belief_of predictions "D1" 0 = [].
Proof. eexists. split; [reflexivity | by vm_compute]. Qed.

(** The comparison with "none" is exact: another spelling is kept as an
    ordinary value. *)
Example none_is_case_sensitive :
  ∃ predictions,
    ingest ex_hotel_area "None" ∅ = Ok predictions ∧
    pred_belief_of predictions "D1" 0 = ["hotel-area-None"].
Proof. eexists. split; [reflexivity | by vm_compute]. Qed.

(** C4. For every (dialogue_id, turn_id), the ground-truth turn belief
    stored at the first sighting of that turn is never overwritten or
    modified by any example ingested later, for that turn or another; of
    the turn's record only the predicted belief changes, and it only grows
    at its end.  The domain of the dialogue stays as well. *)
Theorem C4_ground_truth_kept (st st' : state) (batch : list (example * string))
    (dial_id : string) (tid : Z) (dlg : dialogue) (t : turn) :
  st.1 !! dial_id = Some dlg →
  turns dlg !! tid = Some t →
  run_batch st batch = Ok st' →
  ∃ dlg' t',
    st'.1 !! dial_id = Some dlg' ∧
    turns dlg' !! tid = Some t' ∧
    domain dlg' = domain dlg ∧
    turn_belief t' = turn_belief t ∧
    pred_belief t `prefix_of` pred_belief t'.
Proof.
  revert st dlg t. induction batch as [|[ex value] batch IH]; intros st dlg t Hd Ht.
  - intros [= <-]. by exists dlg, t.
  - simpl. destruct (process st (ex, value)) as [st1|] eqn:Hp; simpl; [|done].
    apply process_Ok_inv in Hp as [Hi _]. intros Hrun.
    destruct (ingest_domain _ _ _ _ _ _ Hi Hd) as (dlg1 & Hd1 & Hdom1).
    destruct (ingest_keeps_turn _ _ _ _ dial_id tid t Hi) as (t1 & Ht1 & Hb1 & Hp1).
    { unfold lookup_turn. rewrite Hd. simpl. done. }
    unfold lookup_turn in Ht1. rewrite Hd1 in Ht1. simpl in Ht1.
    destruct (IH _ _ _ Hd1 Ht1 Hrun) as (dlg' & t' & Hd' & Ht' & Hdom' & Hb' & Hp').
    exists dlg', t'. repeat split; try done; try congruence.
    by etrans.
Qed.

Lemma C4_witness :
  ((seen_hotel_area, init_slot_logger ["hotel-area"; "train-day"]).1 !! "D1" =
      Some {| domain := "hotel";
              turns := {[0 := {| turn_belief := ["hotel-area-east"];
                                 pred_belief := ["hotel-area-east"] |}]} |}) ∧
  ∃ st',
    run_batch (seen_hotel_area, init_slot_logger ["hotel-area"; "train-day"])
      [(ex_hotel_area, "west"); (ex_train_day, "monday")] = Ok st' ∧
    ∃ dlg' t',
      st'.1 !! "D1" = Some dlg' ∧
      turns dlg' !! 0 = Some t' ∧
      domain dlg' = "hotel" ∧
      turn_belief t' = ["hotel-area-east"] ∧
      ["hotel-area-east"] `prefix_of` pred_belief t'.
Proof.
  split; [reflexivity|].
  eexists. split; [vm_compute; reflexivity|].
  eapply (C4_ground_truth_kept
            (seen_hotel_area, init_slot_logger ["hotel-area"; "train-day"]) _
            [(ex_hotel_area, "west"); (ex_train_day, "monday")] "D1" 0
            {| domain := "hotel";
               turns := {[0 := {| turn_belief := ["hotel-area-east"];
                                  pred_belief := ["hotel-area-east"] |}]} |}
            {| turn_belief := ["hotel-area-east"];
               pred_belief := ["hotel-area-east"] |}
            eq_refl eq_refl).
  vm_compute; reflexivity.
Defined.

(** C5, as stated, has the domain stored when a turn is first seen.  The
    code stores it when the dialogue is first seen (line 155) and the
    turn's record has no domain of its own (lines 158-161): a later turn
    of a dialogue that is already there leaves the dialogue's domain as it
    was, whatever domains the example carries. *)
Lemma C5_domain_not_stored_per_turn : ¬ domain_stored_at_turn_sighting.
Proof.
  intros Hstated.
  destruct (Hstated ex_train_day "monday" seen_hotel_area
              (<["D1" := {| domain := "hotel";
                            turns := <[1 := {| turn_belief := ["hotel-area-east"; "train-day-monday"];
                                               pred_belief := ["train-day-monday"] |}]>
                                       {[0 := {| turn_belief := ["hotel-area-east"];
                                                 pred_belief := ["hotel-area-east"] |}]} |}]>
                 seen_hotel_area)
              "train") as (dlg & Hdlg & Hdom).
  - reflexivity.
  - reflexivity.
  - vm_compute; reflexivity.
  - simpl in Hdlg. rewrite lookup_insert_eq in Hdlg. by simplify_eq.
Qed.

(** C5 (amended). On the first sighting of a dialogue_id its record is
    created with the first of the example's domains and, as its only
    turn, the example's turn; on the first sighting of a turn_id in a
    dialogue that is already there, the turn is added and the dialogue's
    domain is left as it was.  In both cases the new turn's record holds
    the example's full ground-truth turn belief verbatim and a predicted
    belief that starts empty, to which the same example's value is
    appended unless it is "none". *)
Theorem C5_first_sighting (ex : example) (value : string)
    (predictions : predictions_t) (t0 : turn) :
  t0 = {| turn_belief := ex_turn_belief ex;
          pred_belief := if decide (value = "none") then []
                         else [ex_slot_text ex +:+ "-" +:+ value] |} →
  (∀ d ds, predictions !! ex_ID ex = None →
           ex_domains ex = d :: ds →
           ingest ex value predictions =
             Ok (<[ex_ID ex := {| domain := d; turns := {[ex_turn_id ex := t0]} |}]>
                   predictions)) ∧
  (∀ dlg, predictions !! ex_ID ex = Some dlg →
          turns dlg !! ex_turn_id ex = None →
          ingest ex value predictions =
            Ok (<[ex_ID ex := {| domain := domain dlg;
                                 turns := <[ex_turn_id ex := t0]> (turns dlg) |}]>
                  predictions)).
Proof.
  intros ->. rewrite ingest_eq, add_pred_fresh_turn. split.
  - intros d ds -> ->. done.
  - intros dlg -> ->. done.
Qed.

Lemma C5_witness :
  ingest ex_hotel_area "none" ∅ =
    Ok (<["D1" := {| domain := "hotel";
                     turns := {[0 := {| turn_belief := ["hotel-area-east"];
                                        pred_belief := [] |}]} |}]> ∅) ∧
  ingest ex_train_day "monday" seen_hotel_area =
    Ok (<["D1" := {| domain := "hotel";
                     turns := <[1 := {| turn_belief := ["hotel-area-east"; "train-day-monday"];
                                        pred_belief := ["train-day-monday"] |}]>
                                {[0 := {| turn_belief := ["hotel-area-east"];
                                          pred_belief := ["hotel-area-east"] |}]} |}]>
          seen_hotel_area).
Proof.
  split.
  - exact (proj1 (C5_first_sighting ex_hotel_area "none" ∅ _ eq_refl)
             "hotel" [] eq_refl eq_refl).
  - exact (proj2 (C5_first_sighting ex_train_day "monday" seen_hotel_area _ eq_refl)
             {| domain := "hotel";
                turns := {[0 := {| turn_belief := ["hotel-area-east"];
                                   pred_belief := ["hotel-area-east"] |}]} |}
             eq_refl eq_refl).
Defined.

(** C6, as stated, has the accumulator unchanged by any ingestion of
    "none".  The first such ingestion of a dialogue or turn not seen
    before creates its record (lines 153-161), with an empty predicted
    belief. *)
Lemma C6_none_creates_records : ¬ none_leaves_state.
Proof.
  intros Hstated.
  assert (Hi : ingest ex_hotel_area "none" ∅ =
                 Ok {["D1" := {| domain := "hotel";
                                 turns := {[0 := {| turn_belief := ["hotel-area-east"];
                                                    pred_belief := [] |}]} |}]})
    by (vm_compute; reflexivity).
  apply Hstated in Hi.
  apply (f_equal (λ m : predictions_t, m !! "D1")) in Hi.
  rewrite lookup_singleton_eq, lookup_empty in Hi. done.
Qed.

Lemma ingest_none_seen (ex : example) (predictions : predictions_t) :
  is_Some (lookup_turn predictions (ex_ID ex) (ex_turn_id ex)) →
  ingest ex "none" predictions = Ok predictions.
Proof.
  intros [t Ht]. rewrite ingest_eq. unfold lookup_turn in Ht.
  destruct (predictions !! ex_ID ex) as [dlg|]; [|done]. simpl in Ht.
  rewrite Ht. by rewrite decide_False by (by intros ?).
Qed.

(** C6 (amended). Ingesting an example with generated value "none" never
    changes the predicted belief of any turn.  When the example's dialogue
    and turn were seen before, the accumulator state after the ingestion
    equals the state before it; and after one such ingestion, ingesting
    any example of the same dialogue and turn with "none", any number of
    times, leaves the state as it is. *)
Theorem C6_none_idempotent (ex : example) (predictions : predictions_t) :
  is_Some (predictions !! ex_ID ex) ∨ ex_domains ex ≠ [] →
  ∃ predictions',
    ingest ex "none" predictions = Ok predictions' ∧
    (∀ dial_id tid,
       pred_belief_of predictions' dial_id tid =
         pred_belief_of predictions dial_id tid) ∧
    (is_Some (lookup_turn predictions (ex_ID ex) (ex_turn_id ex)) →
     predictions' = predictions) ∧
    (∀ ex2 n, ex_ID ex2 = ex_ID ex → ex_turn_id ex2 = ex_turn_id ex →
              ingest_n n ex2 "none" predictions' = Ok predictions').
Proof.
  intros Hpre. destruct (ingest_Ok ex "none" predictions Hpre) as [predictions' Hi].
  exists predictions'. split; [done|]. split; [|split].
  - intros dial_id tid.
    destruct (decide ((dial_id, tid) = (ex_ID ex, ex_turn_id ex))) as [[= -> ->]|Hne].
    + rewrite (pred_belief_of_ingest _ _ _ _ Hi).
      by rewrite decide_False by (by intros ?).
    + unfold pred_belief_of. by rewrite (lookup_turn_ingest_ne _ _ _ _ _ _ Hi Hne).
  - intros Hseen. rewrite ingest_none_seen in Hi by done. by simplify_eq.
  - intros ex2 n HID Htid. apply ingest_Ok_seen in Hi. rewrite <- HID, <- Htid in Hi.
    induction n as [|n IH]; simpl; [done|].
    by rewrite ingest_none_seen.
Qed.

Lemma C6_witness :
  (is_Some ((∅ : predictions_t) !! ex_ID ex_hotel_area) ∨
   ex_domains ex_hotel_area ≠ []) ∧
  ∃ predictions',
    ingest ex_hotel_area "none" ∅ = Ok predictions' ∧
    (∀ dial_id tid,
       pred_belief_of predictions' dial_id tid = pred_belief_of ∅ dial_id tid) ∧
    (is_Some (lookup_turn ∅ (ex_ID ex_hotel_area) (ex_turn_id ex_hotel_area)) →
     predictions' = ∅) ∧
    (∀ ex2 n, ex_ID ex2 = ex_ID ex_hotel_area →
              ex_turn_id ex2 = ex_turn_id ex_hotel_area →
              ingest_n n ex2 "none" predictions' = Ok predictions').
Proof.
  assert (H : is_Some ((∅ : predictions_t) !! ex_ID ex_hotel_area) ∨
              ex_domains ex_hotel_area ≠ [])
    by (right; simpl; intros Heq; discriminate Heq).
  split; [exact H | exact (C6_none_idempotent ex_hotel_area ∅ H)].
Defined.

(** C9. Ingesting the same (dialogue_id, turn_id, slot_name) twice with two
    generated values other than "none" appends both entries to the turn's
    predicted belief, in that order and after what was there: the
    predicted belief is an append-only sequence, so it can hold two
    entries for one slot, equal or conflicting, and no earlier entry is
    overwritten or removed. *)
Theorem C9_duplicates_appended (ex1 ex2 : example) (value1 value2 : string)
    (predictions : predictions_t) :
  ex_ID ex2 = ex_ID ex1 →
  ex_turn_id ex2 = ex_turn_id ex1 →
  ex_slot_text ex2 = ex_slot_text ex1 →
  value1 ≠ "none" →
  value2 ≠ "none" →
  is_Some (predictions !! ex_ID ex1) ∨ ex_domains ex1 ≠ [] →
  ∃ predictions1 predictions2,
    ingest ex1 value1 predictions = Ok predictions1 ∧
    ingest ex2 value2 predictions1 = Ok predictions2 ∧
    pred_belief_of predictions2 (ex_ID ex1) (ex_turn_id ex1) =
      pred_belief_of predictions (ex_ID ex1) (ex_turn_id ex1)
        ++ [ex_slot_text ex1 +:+ "-" +:+ value1;
            ex_slot_text ex1 +:+ "-" +:+ value2].
Proof.
  intros HID Htid Hslot Hv1 Hv2 Hpre.
  destruct (ingest_Ok ex1 value1 predictions Hpre) as [predictions1 Hi1].
  destruct (ingest_seen_Ok ex2 value2 predictions1) as [predictions2 Hi2].
  { rewrite HID. destruct (ingest_Ok_seen _ _ _ _ Hi1) as [t Ht].
    by eapply lookup_turn_Some_dialogue. }
  exists predictions1, predictions2. split; [done|]. split; [done|].
  pose proof (pred_belief_of_ingest _ _ _ _ Hi2) as H2.
  rewrite HID, Htid in H2. rewrite H2.
  rewrite (pred_belief_of_ingest _ _ _ _ Hi1), !decide_True by done.
  unfold slot_value. by rewrite Hslot, <- app_assoc.
Qed.

Lemma C9_witness :
  "east" ≠ "none" ∧ "west" ≠ "none" ∧
  (is_Some ((∅ : predictions_t) !! ex_ID ex_hotel_area) ∨
   ex_domains ex_hotel_area ≠ []) ∧
  ∃ predictions1 predictions2,
    ingest ex_hotel_area "east" ∅ = Ok predictions1 ∧
    ingest ex_hotel_area "west" predictions1 = Ok predictions2 ∧
    pred_belief_of predictions2 (ex_ID ex_hotel_area) (ex_turn_id ex_hotel_area) =
      pred_belief_of ∅ (ex_ID ex_hotel_area) (ex_turn_id ex_hotel_area)
        ++ [ex_slot_text ex_hotel_area +:+ "-" +:+ "east";
            ex_slot_text ex_hotel_area +:+ "-" +:+ "west"].
Proof.
  assert (H1 : "east" ≠ "none") by (intros Heq; discriminate Heq).
  assert (H2 : "west" ≠ "none") by (intros Heq; discriminate Heq).
  assert (H : is_Some ((∅ : predictions_t) !! ex_ID ex_hotel_area) ∨
              ex_domains ex_hotel_area ≠ [])
    by (right; simpl; intros Heq; discriminate Heq).
  split; [exact H1|]. split; [exact H2|]. split; [exact H|].
  exact (C9_duplicates_appended ex_hotel_area ex_hotel_area "east" "west" ∅
           eq_refl eq_refl eq_refl H1 H2 H).
Defined.

(** The same value twice gives the same entry twice. *)
Example same_value_twice :
  ∃ predictions2,
    ingest ex_hotel_area "east" seen_hotel_area = Ok predictions2 ∧
    pred_belief_of predictions2 "D1" 0 = ["hotel-area-east"; "hotel-area-east"].
Proof. eexists. split; [reflexivity | by vm_compute]. Qed.

(** ** Slot logger *)

(** C3. For every processed example, the slot logger increments the total
    counter of the example's slot by exactly one, and the hit counter of
    that slot by exactly one if and only if the generated value equals the
    ground-truth value text as a string; whether the value is "none" plays
    no part.  The ratio field, the other slots and the keys are left as
    they were. *)
Theorem C3_record_counts (ex : example) (value : string)
    (slot_logger : slot_logger_t) (t h : Z) (r : pynum) :
  dict_get slot_logger (ex_slot_text ex) = Some [PyInt t; PyInt h; r] →
  ∃ slot_logger' h',
    record ex value slot_logger = Ok slot_logger' ∧
    dict_get slot_logger' (ex_slot_text ex) = Some [PyInt (t + 1); PyInt h'; r] ∧
    (h' = h + 1 ↔ value = ex_value_text ex) ∧
    (h' = h ↔ value ≠ ex_value_text ex) ∧
    (∀ slot, slot ≠ ex_slot_text ex →
             dict_get slot_logger' slot = dict_get slot_logger slot) ∧
    dict_keys slot_logger' = dict_keys slot_logger.
Proof.
  intros Hg. eexists _, _. split; [by apply record_eq|].
  split; [by rewrite dict_get_setitem_eq|].
  split; [case_decide; split; first [done | lia]|].
  split; [case_decide; split; first [done | lia]|].
  split; [intros slot Hne; by rewrite dict_get_setitem_ne|].
  by erewrite dict_keys_setitem_Some.
Qed.

Lemma C3_witness :
  dict_get (init_slot_logger ["hotel-area"; "hotel-stars"]) (ex_slot_text ex_hotel_stars) =
    Some [PyInt 0; PyInt 0; PyInt 0] ∧
  ∃ slot_logger' h',
    record ex_hotel_stars "none" (init_slot_logger ["hotel-area"; "hotel-stars"]) =
      Ok slot_logger' ∧
    dict_get slot_logger' (ex_slot_text ex_hotel_stars) =
      Some [PyInt (0 + 1); PyInt h'; PyInt 0] ∧
    (h' = 0 + 1 ↔ "none" = ex_value_text ex_hotel_stars) ∧
    (h' = 0 ↔ "none" ≠ ex_value_text ex_hotel_stars) ∧
    (∀ slot, slot ≠ ex_slot_text ex_hotel_stars →
             dict_get slot_logger' slot =
               dict_get (init_slot_logger ["hotel-area"; "hotel-stars"]) slot) ∧
    dict_keys slot_logger' = dict_keys (init_slot_logger ["hotel-area"; "hotel-stars"]).
Proof.
  assert (H : dict_get (init_slot_logger ["hotel-area"; "hotel-stars"])
                (ex_slot_text ex_hotel_stars) = Some [PyInt 0; PyInt 0; PyInt 0])
    by reflexivity.
  split; [exact H | exact (C3_record_counts _ "none" _ _ _ _ H)].
Defined.

(** A "none" generated for a slot whose ground truth is "none" is a hit. *)
Example none_can_hit :
  record ex_hotel_stars "none" (init_slot_logger ["hotel-area"; "hotel-stars"]) =
    Ok [("hotel-area", [PyInt 0; PyInt 0; PyInt 0]);
        ("hotel-stars", [PyInt 1; PyInt 1; PyInt 0])].
Proof. reflexivity. Qed.

(** During a pass every slot of [ALL_SLOTS] holds its tally. *)
Lemma run_batch_counters (ALL_SLOTS : list string)
    (done : list (example * string)) (st : state) (slot : string) :
  run_batch (∅, init_slot_logger ALL_SLOTS) done = Ok st →
  dict_get st.2 slot =
    if decide (slot ∈ ALL_SLOTS) then Some (tally slot done) else None.
Proof.
  intros Hrun. destruct (init_slot_logger_tallied ALL_SLOTS) as [Ht Hk].
  destruct (run_batch_tallied [] (∅, init_slot_logger ALL_SLOTS) _ _ Ht Hrun)
    as [Ht' Hk'].
  simpl in Ht', Hk'. case_decide as Hin.
  - apply tallied_keys_get; [done|]. rewrite Hk'. by apply Hk.
  - apply dict_get_None. rewrite Hk'. by rewrite Hk.
Qed.

(** C10. Processing an example whose slot name is not a member of
    ALL_SLOTS fails with a missing-key error when the slot logger is
    updated: the logger holds the slots of ALL_SLOTS only, an unknown slot
    name is not added to it, and the example is not accepted. *)
Theorem C10_unknown_slot (ALL_SLOTS : list string)
    (done : list (example * string)) (st : state) (ex : example)
    (value : string) :
  run_batch (∅, init_slot_logger ALL_SLOTS) done = Ok st →
  ex_slot_text ex ∉ ALL_SLOTS →
  dict_get st.2 (ex_slot_text ex) = None ∧
  record ex value st.2 = Raise (KeyError (KStr (ex_slot_text ex))) ∧
  (∀ predictions',
     ingest ex value st.1 = Ok predictions' →
     process st (ex, value) = Raise (KeyError (KStr (ex_slot_text ex)))) ∧
  (∀ st', process st (ex, value) ≠ Ok st').
Proof.
  intros Hrun Hout.
  assert (Hg : dict_get st.2 (ex_slot_text ex) = None).
  { rewrite (run_batch_counters _ _ _ _ Hrun). by rewrite decide_False. }
  pose proof (record_missing ex value _ Hg) as Hr.
  split; [done|]. split; [done|]. split.
  - intros predictions' Hi. unfold process. simpl. by rewrite Hi, bind_Ok, Hr.
  - intros st' Hp. apply process_Ok_inv in Hp as [_ Hr']. congruence.
Qed.

Lemma C10_witness :
  run_batch (∅, init_slot_logger ["hotel-area"]) [(ex_hotel_area, "east")] =
    Ok (seen_hotel_area, [("hotel-area", [PyInt 1; PyInt 1; PyInt 0])]) ∧
  (ex_slot_text ex_train_day ∉ ["hotel-area"]) ∧
  dict_get (seen_hotel_area, [("hotel-area", [PyInt 1; PyInt 1; PyInt 0])]).2
    (ex_slot_text ex_train_day) = None ∧
  record ex_train_day "monday"
    (seen_hotel_area, [("hotel-area", [PyInt 1; PyInt 1; PyInt 0])]).2 =
    Raise (KeyError (KStr (ex_slot_text ex_train_day))) ∧
  (∀ predictions',
     ingest ex_train_day "monday"
       (seen_hotel_area, [("hotel-area", [PyInt 1; PyInt 1; PyInt 0])]).1 =
       Ok predictions' →
     process (seen_hotel_area, [("hotel-area", [PyInt 1; PyInt 1; PyInt 0])])
       (ex_train_day, "monday") =
       Raise (KeyError (KStr (ex_slot_text ex_train_day)))) ∧
  (∀ st', process (seen_hotel_area, [("hotel-area", [PyInt 1; PyInt 1; PyInt 0])])
            (ex_train_day, "monday") ≠ Ok st').
Proof.
  assert (H : run_batch (∅, init_slot_logger ["hotel-area"]) [(ex_hotel_area, "east")] =
                Ok (seen_hotel_area, [("hotel-area", [PyInt 1; PyInt 1; PyInt 0])]))
    by (vm_compute; reflexivity).
  assert (Hout : ex_slot_text ex_train_day ∉ ["hotel-area"]).
  { intros Hin. apply list_elem_of_singleton in Hin. discriminate Hin. }
  split; [exact H|]. split; [exact Hout|].
  exact (C10_unknown_slot ["hotel-area"] _ _ ex_train_day "monday" H Hout).
Defined.

(** ** The pass ends normally on well-formed input *)

(** The loop goes through when every example names a slot of the logger
    and carries a domain. *)
Lemma run_batch_Ok (done : list (example * string)) (st : state)
    (batch : list (example * string)) :
  tallied done st.2 →
  Forall (λ xv, ex_slot_text xv.1 ∈ dict_keys st.2 ∧ ex_domains xv.1 ≠ []) batch →
  ∃ st', run_batch st batch = Ok st'.
Proof.
  revert done st. induction batch as [|[ex value] batch IH]; intros done st Ht Hall.
  - by eexists.
  - apply Forall_cons in Hall as [[Hslot Hdom] Hall]. simpl in Hslot, Hdom.
    destruct (ingest_Ok ex value st.1 (or_intror Hdom)) as [p Hp].
    destruct (record_tallied done ex value _ Ht Hslot) as (l & Hl & Ht1 & Hk).
    simpl. unfold process. simpl. rewrite Hp, bind_Ok, Hl, !bind_Ok.
    apply (IH (done ++ [(ex, value)]) (p, l)); [done|].
    simpl. by rewrite Hk.
Qed.

(** The whole pass goes through, and writes its three documents, when in
    addition every slot of [ALL_SLOTS] occurs in the loader and
    [evaluate_metrics] returns. *)
Lemma evaluate_model_Ok {Metric : Type}
    (evaluate_metrics : predictions_t → list string → pyresult (Metric * Metric * Metric))
    (results_exists : bool) (test_loader : list (list (example * string)))
    (ALL_SLOTS : list string) (prefix : string) :
  Forall (λ xv, ex_slot_text xv.1 ∈ ALL_SLOTS ∧ ex_domains xv.1 ≠ [])
    (flatten test_loader) →
  (∀ slot, slot ∈ ALL_SLOTS → 0 < seen_total slot (flatten test_loader)) →
  (∀ predictions, ∃ m, evaluate_metrics predictions ALL_SLOTS = Ok m) →
  ∃ trace predictions,
    evaluate_model evaluate_metrics results_exists test_loader ALL_SLOTS prefix =
      (trace, Ok predictions).
Proof.
  intros Hall Hpos Hem.
  destruct (init_slot_logger_tallied ALL_SLOTS) as [Ht Hk].
  destruct (run_batch_Ok [] (∅, init_slot_logger ALL_SLOTS) (flatten test_loader) Ht)
    as [[predictions slot_logger] Hrun].
  { eapply Forall_impl; [done|]. intros xv [Hs Hd]. split; [|done]. by apply Hk. }
  rewrite <- run_loader_flatten in Hrun.
  destruct (run_loader_tallied _ _ _ Hrun) as [[Hnd Htal] Hkeys]. simpl in *.
  destruct (finalize_tallied (flatten test_loader) slot_logger Htal)
    as [slot_logger' Hfin].
  { apply Forall_forall. intros [k l] Hin. simpl. apply Hpos, Hkeys.
    apply list_elem_of_fmap. by exists (k, l). }
  destruct (Hem predictions) as [[[joint f1] turn_acc] Hm].
  unfold evaluate_model. rewrite Hrun, Hfin, Hm. by eexists _, _.
Qed.

(** ** Finalisation and the documents *)

Lemma py_truediv_int_inv (a b : Z) (r : pynum) :
  py_truediv (PyInt a) (PyInt b) = Ok r → b ≠ 0 ∧ ∃ f, r = PyFloat f.
Proof.
  unfold py_truediv. case_decide; [done|].
  destruct (is_infinite _); [done|]. intros [= <-]. eauto.
Qed.

Lemma set_ratio_int_inv (t h : Z) (x : pynum) (slot_log : list pynum) :
  set_ratio [PyInt t; PyInt h; x] = Ok slot_log →
  t ≠ 0 ∧
  ∃ f, py_truediv (PyInt h) (PyInt t) = Ok (PyFloat f) ∧
       slot_log = [PyInt t; PyInt h; PyFloat f].
Proof.
  unfold set_ratio.
  change (list_getitem [PyInt t; PyInt h; x] 1) with (@Ok pynum (PyInt h)).
  change (list_getitem [PyInt t; PyInt h; x] 0) with (@Ok pynum (PyInt t)).
  rewrite !bind_Ok.
  destruct (py_truediv (PyInt h) (PyInt t)) as [r|] eqn:Hdiv; [|done].
  apply py_truediv_int_inv in Hdiv as Hr. destruct Hr as [Ht [f ->]].
  rewrite bind_Ok. intros [= <-]. eauto.
Qed.

(** C2. If at finalize time any slot has total count 0, computing the
    accuracy ratio raises ZeroDivisionError instead of giving 0 or NaN,
    and the pass ends there: evaluate_metrics has not been called and none
    of the three result files has been written. *)
Theorem C2_zero_total_halts {Metric : Type}
    (evaluate_metrics : predictions_t → list string → pyresult (Metric * Metric * Metric))
    (results_exists : bool) (test_loader : list (list (example * string)))
    (ALL_SLOTS : list string) (prefix : string)
    (predictions : predictions_t) (slot_logger : slot_logger_t)
    (slot : string) (slot_log : list pynum) :
  run_loader (∅, init_slot_logger ALL_SLOTS) test_loader =
    Ok (predictions, slot_logger) →
  dict_get slot_logger slot = Some slot_log →
  slot_log !! 0%nat = Some (PyInt 0) →
  finalize slot_logger = Raise ZeroDivisionError ∧
  evaluate_model evaluate_metrics results_exists test_loader ALL_SLOTS prefix =
    (if results_exists then [] else [Makedirs], Raise ZeroDivisionError).
Proof.
  intros Hrun Hg Hz.
  destruct (run_loader_tallied _ _ _ Hrun) as [[_ Hall] _]. simpl in Hall.
  assert (Hf : finalize slot_logger = Raise ZeroDivisionError).
  { eapply finalize_zero_total; [done|].
    apply Exists_exists. exists (slot, slot_log).
    split; [by apply dict_get_Some_elem | done]. }
  split; [done|]. unfold evaluate_model. by rewrite Hrun, Hf.
Qed.

Lemma C2_witness :
  run_loader (∅, init_slot_logger ["hotel-area"; "hotel-stars"])
    [[(ex_hotel_area, "east")]] =
    Ok (seen_hotel_area,
        [("hotel-area", [PyInt 1; PyInt 1; PyInt 0]);
         ("hotel-stars", [PyInt 0; PyInt 0; PyInt 0])]) ∧
  dict_get [("hotel-area", [PyInt 1; PyInt 1; PyInt 0]);
            ("hotel-stars", [PyInt 0; PyInt 0; PyInt 0])] "hotel-stars" =
    Some [PyInt 0; PyInt 0; PyInt 0] ∧
  [PyInt 0; PyInt 0; PyInt 0] !! 0%nat = Some (PyInt 0) ∧
  finalize [("hotel-area", [PyInt 1; PyInt 1; PyInt 0]);
            ("hotel-stars", [PyInt 0; PyInt 0; PyInt 0])] =
    Raise ZeroDivisionError ∧
  evaluate_model constant_metrics false [[(ex_hotel_area, "east")]]
    ["hotel-area"; "hotel-stars"] "zeroshot" =
    ([Makedirs], Raise ZeroDivisionError).
Proof.
  assert (H : run_loader (∅, init_slot_logger ["hotel-area"; "hotel-stars"])
                [[(ex_hotel_area, "east")]] =
              Ok (seen_hotel_area,
                  [("hotel-area", [PyInt 1; PyInt 1; PyInt 0]);
                   ("hotel-stars", [PyInt 0; PyInt 0; PyInt 0])]))
    by (vm_compute; reflexivity).
  split; [exact H|]. split; [reflexivity|]. split; [reflexivity|].
  exact (C2_zero_total_halts constant_metrics false _ _ "zeroshot" _ _
           "hotel-stars" _ H eq_refl eq_refl).
Defined.

(** C7. When the pass ends normally, the slot accuracy document maps every
    slot of ALL_SLOTS, and no other key, to the three-element list
    [total_count, hit_count, accuracy_ratio] in that order, and the
    metrics document is the mapping with exactly the keys "Joint Acc",
    "Turn Acc" and "Joint F1", holding the joint accuracy, the turn
    accuracy and the F1 score that evaluate_metrics returned. *)
Theorem C7_documents {Metric : Type}
    (evaluate_metrics : predictions_t → list string → pyresult (Metric * Metric * Metric))
    (results_exists : bool) (test_loader : list (list (example * string)))
    (ALL_SLOTS : list string) (prefix : string)
    (trace : list event) (predictions : predictions_t) :
  evaluate_model evaluate_metrics results_exists test_loader ALL_SLOTS prefix =
    (trace, Ok predictions) →
  ∃ slot_logger joint_acc_score F1_score turn_acc_score,
    trace =
      setup_trace results_exists ++
      [Dump (prefix +:+ "_slot_acc.json") (SlotAccDoc slot_logger);
       Dump (prefix +:+ "_prediction.json") (PredictionDoc predictions);
       Call_evaluate_metrics;
       Print_line (prefix +:+ " result:")
         (MetricsDoc [("Joint Acc", joint_acc_score);
                      ("Turn Acc", turn_acc_score);
                      ("Joint F1", F1_score)]);
       Dump (prefix +:+ "_result.json")
         (MetricsDoc [("Joint Acc", joint_acc_score);
                      ("Turn Acc", turn_acc_score);
                      ("Joint F1", F1_score)])] ∧
    evaluate_metrics predictions ALL_SLOTS =
      Ok (joint_acc_score, F1_score, turn_acc_score) ∧
    NoDup (dict_keys slot_logger) ∧
    (∀ slot, slot ∈ dict_keys slot_logger ↔ slot ∈ ALL_SLOTS) ∧
    Forall (λ kv, ∃ f,
              py_truediv (PyInt (seen_hits kv.1 (flatten test_loader)))
                         (PyInt (seen_total kv.1 (flatten test_loader))) =
                Ok (PyFloat f) ∧
              kv.2 = [PyInt (seen_total kv.1 (flatten test_loader));
                      PyInt (seen_hits kv.1 (flatten test_loader));
                      PyFloat f])
      slot_logger.
Proof.
  unfold evaluate_model, setup_trace.
  destruct (run_loader _ test_loader) as [[predictions0 slot_logger0]|] eqn:Hrun;
    [|done].
  destruct (finalize slot_logger0) as [slot_logger|] eqn:Hfin; [|done].
  destruct (evaluate_metrics predictions0 ALL_SLOTS) as [[[joint f1] turn_acc]|]
    eqn:Hem; [|done].
  intros [= <- <-]. exists slot_logger, joint, f1, turn_acc.
  split; [by rewrite <- app_assoc|]. split; [done|].
  destruct (run_loader_tallied _ _ _ Hrun) as [[Hnd Hall] Hkeys]. simpl in *.
  pose proof (finalize_keys _ _ Hfin) as Hk. rewrite Hk.
  split; [done|]. split; [done|].
  apply finalize_Ok_inv in Hfin. clear Hk Hnd Hkeys Hrun.
  induction Hfin as [|[k l] [k' l'] d d' [Hk Hl] _ IH]; [done|].
  apply Forall_cons in Hall as [Hl0 Hall]. simpl in *. subst k' l.
  constructor; [|by apply IH].
  apply set_ratio_int_inv in Hl as [_ (f & Hdiv & ->)]. simpl. eauto.
Qed.

Lemma C7_witness :
  evaluate_model constant_metrics true [[(ex_hotel_area, "east")]]
    ["hotel-area"] "zeroshot" =
    ([Dump "zeroshot_slot_acc.json"
        (SlotAccDoc [("hotel-area",
                      [PyInt 1; PyInt 1;
                       PyFloat (S754_finite false 4503599627370496 (-52))])]);
      Dump "zeroshot_prediction.json" (PredictionDoc seen_hotel_area);
      Call_evaluate_metrics;
      Print_line "zeroshot result:"
        (MetricsDoc [("Joint Acc", 1%nat); ("Turn Acc", 1%nat); ("Joint F1", 1%nat)]);
      Dump "zeroshot_result.json"
        (MetricsDoc [("Joint Acc", 1%nat); ("Turn Acc", 1%nat); ("Joint F1", 1%nat)])],
     Ok seen_hotel_area) ∧
  ∃ slot_logger joint_acc_score F1_score turn_acc_score,
    [Dump "zeroshot_slot_acc.json"
        (SlotAccDoc [("hotel-area",
                      [PyInt 1; PyInt 1;
                       PyFloat (S754_finite false 4503599627370496 (-52))])]);
      Dump "zeroshot_prediction.json" (PredictionDoc seen_hotel_area);
      Call_evaluate_metrics;
      Print_line "zeroshot result:"
        (MetricsDoc [("Joint Acc", 1%nat); ("Turn Acc", 1%nat); ("Joint F1", 1%nat)]);
      Dump "zeroshot_result.json"
        (MetricsDoc [("Joint Acc", 1%nat); ("Turn Acc", 1%nat); ("Joint F1", 1%nat)])] =
      setup_trace true ++
      [Dump ("zeroshot" +:+ "_slot_acc.json") (SlotAccDoc slot_logger);
       Dump ("zeroshot" +:+ "_prediction.json") (PredictionDoc seen_hotel_area);
       Call_evaluate_metrics;
       Print_line ("zeroshot" +:+ " result:")
         (MetricsDoc [("Joint Acc", joint_acc_score);
                      ("Turn Acc", turn_acc_score);
                      ("Joint F1", F1_score)]);
       Dump ("zeroshot" +:+ "_result.json")
         (MetricsDoc [("Joint Acc", joint_acc_score);
                      ("Turn Acc", turn_acc_score);
                      ("Joint F1", F1_score)])] ∧
    constant_metrics seen_hotel_area ["hotel-area"] =
      Ok (joint_acc_score, F1_score, turn_acc_score) ∧
    NoDup (dict_keys slot_logger) ∧
    (∀ slot, slot ∈ dict_keys slot_logger ↔ slot ∈ ["hotel-area"]) ∧
    Forall (λ kv, ∃ f,
              py_truediv (PyInt (seen_hits kv.1 (flatten [[(ex_hotel_area, "east")]])))
                         (PyInt (seen_total kv.1 (flatten [[(ex_hotel_area, "east")]]))) =
                Ok (PyFloat f) ∧
              kv.2 = [PyInt (seen_total kv.1 (flatten [[(ex_hotel_area, "east")]]));
                      PyInt (seen_hits kv.1 (flatten [[(ex_hotel_area, "east")]]));
                      PyFloat f])
      slot_logger.
Proof.
  assert (H : evaluate_model constant_metrics true [[(ex_hotel_area, "east")]]
                ["hotel-area"] "zeroshot" =
    ([Dump "zeroshot_slot_acc.json"
        (SlotAccDoc [("hotel-area",
                      [PyInt 1; PyInt 1;
                       PyFloat (S754_finite false 4503599627370496 (-52))])]);
      Dump "zeroshot_prediction.json" (PredictionDoc seen_hotel_area);
      Call_evaluate_metrics;
      Print_line "zeroshot result:"
        (MetricsDoc [("Joint Acc", 1%nat); ("Turn Acc", 1%nat); ("Joint F1", 1%nat)]);
      Dump "zeroshot_result.json"
        (MetricsDoc [("Joint Acc", 1%nat); ("Turn Acc", 1%nat); ("Joint F1", 1%nat)])],
     Ok seen_hotel_area)) by (vm_compute; reflexivity).
  split; [exact H | exact (C7_documents _ _ _ _ _ _ _ H)].
Defined.

(** The number written 0.7 lies within half a unit in the last place
    ([2^-54]) of the ratio 7/10, so it is the binary64 nearest to it. *)
Lemma float_0_7_nearest :
  float_0_7 = S754_finite false 6305039478318694 (-53) ∧
  Z.abs (10 * 6305039478318694 - 7 * 2 ^ 53) * 2 ^ 54 ≤ 10 * 2 ^ 53.
Proof. split; [reflexivity | by vm_compute]. Qed.



(** * Further properties of the evaluation pass *)

(** X1. An ingestion raises only IndexError, and exactly when the
    example's dialogue has not been seen and the example carries no
    domain (line 155); on any other input it returns. *)
Theorem X1_ingest_raises_iff (ex : example) (value : string)
    (predictions : predictions_t) (e : py_exception) :
  ingest ex value predictions = Raise e ↔
  predictions !! ex_ID ex = None ∧ ex_domains ex = [] ∧ e = IndexError.
Proof.
  rewrite ingest_eq. destruct (predictions !! ex_ID ex) as [dlg|].
  - destruct (turns dlg !! ex_turn_id ex); [case_decide|];
      (split; [done | by intros [? _]]).
  - destruct (ex_domains ex) as [|d ds].
    + split; [by intros [= <-] | by intros (_ & _ & ->)].
    + split; [done | by intros (_ & ? & _)].
Qed.

Lemma dom_ingest (ex : example) (value : string)
    (predictions predictions' : predictions_t) :
  ingest ex value predictions = Ok predictions' →
  dom predictions' = {[ex_ID ex]} ∪ dom predictions.
Proof.
  rewrite ingest_eq. destruct (predictions !! ex_ID ex) as [dlg|] eqn:Hd.
  - assert (Hin : ex_ID ex ∈ dom predictions) by (apply elem_of_dom; eauto).
    destruct (turns dlg !! ex_turn_id ex); [case_decide|]; intros [= <-];
      rewrite ?dom_insert_L; try done;
      symmetry; by apply subseteq_union_1_L, singleton_subseteq_l.
  - destruct (ex_domains ex); [done|]. intros [= <-]. by rewrite dom_insert_L.
Qed.

Lemma generated_cons (dial_id : string) (tid : Z) (ex : example)
    (value : string) (done : list (example * string)) :
  generated dial_id tid ((ex, value) :: done) =
    (if decide (ex_ID ex = dial_id ∧ ex_turn_id ex = tid ∧ value ≠ "none")
     then [slot_value ex value] else []) ++ generated dial_id tid done.
Proof.
  unfold generated. rewrite filter_cons. simpl. by case_decide.
Qed.

(** X2. Over a run of the loop the predicted belief of every turn grows by
    exactly the entries slot + "-" + value of the examples of that turn
    whose value is not "none", in the order they were processed. *)
Theorem X2_run_batch_pred_belief (st st' : state)
    (batch : list (example * string)) (dial_id : string) (tid : Z) :
  run_batch st batch = Ok st' →
  pred_belief_of st'.1 dial_id tid =
    pred_belief_of st.1 dial_id tid ++ generated dial_id tid batch.
Proof.
  revert st. induction batch as [|[ex value] batch IH]; intros st.
  - intros [= <-]. by rewrite app_nil_r.
  - simpl. destruct (process st (ex, value)) as [st1|] eqn:Hp; simpl; [|done].
    apply process_Ok_inv in Hp as [Hi _]. intros Hrun.
    rewrite (IH _ Hrun), generated_cons, app_assoc. f_equal.
    destruct (decide ((dial_id, tid) = (ex_ID ex, ex_turn_id ex))) as [[= -> ->]|Hne].
    + rewrite (pred_belief_of_ingest _ _ _ _ Hi).
      destruct (decide (value ≠ "none")).
      * by rewrite decide_True.
      * rewrite decide_False by tauto. by rewrite app_nil_r.
    + unfold pred_belief_of. rewrite (lookup_turn_ingest_ne _ _ _ _ _ _ Hi Hne).
      rewrite decide_False; [by rewrite app_nil_r|].
      intros (<- & <- & _). done.
Qed.

Lemma X2_witness :
  ∃ st',
    run_batch (∅, init_slot_logger ["hotel-area"; "hotel-stars"])
      [(ex_hotel_area, "east"); (ex_hotel_stars, "none"); (ex_hotel_area, "west")] =
      Ok st' ∧
    pred_belief_of st'.1 "D1" 0 =
      pred_belief_of (∅, init_slot_logger ["hotel-area"; "hotel-stars"]).1 "D1" 0 ++
      generated "D1" 0
        [(ex_hotel_area, "east"); (ex_hotel_stars, "none"); (ex_hotel_area, "west")].
Proof.
  eexists. split; [vm_compute; reflexivity|].
  eapply (X2_run_batch_pred_belief (∅, init_slot_logger ["hotel-area"; "hotel-stars"]) _
            [(ex_hotel_area, "east"); (ex_hotel_stars, "none"); (ex_hotel_area, "west")]
            "D1" 0).
  vm_compute; reflexivity.
Defined.


Lemma head_filter_cons {A} (P : A → Prop) `{!∀ x, Decision (P x)}
    (x : A) (l : list A) :
  head (filter P (x :: l)) = if decide (P x) then Some x else head (filter P l).
Proof. rewrite filter_cons. by case_decide. Qed.

(** X3. The first example seen for a turn decides its stored ground truth,
    and the first example seen for a dialogue decides its domain: after a
    run of the loop from the empty accumulator, a turn is present exactly
    when some example named it, its turn_belief is that of the first such
    example, and the dialogue's domain is the first domain of the first
    example of the dialogue. *)
Theorem X3_run_batch_first_writer (slot_logger : slot_logger_t) (st' : state)
    (done : list (example * string)) (dial_id : string) (tid : Z) :
  run_batch (∅, slot_logger) done = Ok st' →
  lookup_turn st'.1 dial_id tid =
    (λ xv, {| turn_belief := ex_turn_belief xv.1;
              pred_belief := generated dial_id tid done |})
      <$> first_of_turn dial_id tid done ∧
  domain <$> st'.1 !! dial_id =
    first_of_dialogue dial_id done ≫= (λ xv, head (ex_domains xv.1)).
Proof.
  intros Hrun.
  assert (Hgen : ∀ (st : state) batch,
    run_batch st batch = Ok st' →
    (lookup_turn st'.1 dial_id tid =
       match lookup_turn st.1 dial_id tid with
       | Some t => Some {| turn_belief := turn_belief t;
                           pred_belief := pred_belief t ++ generated dial_id tid batch |}
       | None => (λ xv, {| turn_belief := ex_turn_belief xv.1;
                           pred_belief := generated dial_id tid batch |})
                   <$> first_of_turn dial_id tid batch
       end) ∧
    (domain <$> st'.1 !! dial_id =
       match st.1 !! dial_id with
       | Some dlg => Some (domain dlg)
       | None => first_of_dialogue dial_id batch ≫= (λ xv, head (ex_domains xv.1))
       end)).
  { clear Hrun. intros st batch. revert st.
    induction batch as [|[ex value] batch IH]; intros st.
    - intros [= <-]. split.
      + destruct (lookup_turn st.1 dial_id tid) as [[tb pb]|]; [|done].
        simpl. by rewrite app_nil_r.
      + by destruct (st.1 !! dial_id).
    - simpl. destruct (process st (ex, value)) as [st1|] eqn:Hp; simpl; [|done].
      apply process_Ok_inv in Hp as [Hi _]. intros Hrun.
      destruct (IH _ Hrun) as [IHt IHd]. split.
      + rewrite IHt. unfold first_of_turn. rewrite head_filter_cons, generated_cons.
        simpl.
        destruct (decide ((dial_id, tid) = (ex_ID ex, ex_turn_id ex)))
          as [[= -> ->]|Hne].
        * rewrite (lookup_turn_ingest _ _ _ _ Hi).
          rewrite (decide_True (P := ex_ID ex = ex_ID ex ∧ ex_turn_id ex = ex_turn_id ex))
            by done.
          destruct (lookup_turn st.1 (ex_ID ex) (ex_turn_id ex)) as [t|]; simpl;
            rewrite turn_belief_add_pred, pred_belief_add_pred;
            destruct (decide (value ≠ "none")) as [Hv|Hv];
            destruct (decide (_ ∧ _ ∧ _)) as [Hc|Hc];
            try (exfalso; tauto); simpl; by rewrite <- ?app_assoc.
        * rewrite (lookup_turn_ingest_ne _ _ _ _ _ _ Hi Hne).
          rewrite (decide_False (P := ex_ID ex = dial_id ∧ ex_turn_id ex = tid))
            by (intros [<- <-]; done).
          rewrite decide_False by (intros (<- & <- & _); done).
          done.
      + rewrite IHd. unfold first_of_dialogue. rewrite head_filter_cons. simpl.
        destruct (st.1 !! dial_id) as [dlg|] eqn:Hd.
        * destruct (ingest_domain _ _ _ _ _ _ Hi Hd) as (dlg1 & -> & ->). done.
        * rewrite ingest_eq in Hi.
          destruct (decide (ex_ID ex = dial_id)) as [<-|Hne].
          -- simpl. rewrite Hd in Hi. destruct (ex_domains ex) as [|d ds]; [done|].
             injection Hi as <-. by rewrite lookup_insert_eq.
          -- destruct (st.1 !! ex_ID ex) as [dlg0|].
             ++ destruct (turns dlg0 !! ex_turn_id ex); [case_decide|];
                  injection Hi as <-; by rewrite ?lookup_insert_ne, Hd.
             ++ destruct (ex_domains ex); [done|]. injection Hi as <-.
                by rewrite lookup_insert_ne, Hd. }
  destruct (Hgen _ _ Hrun) as [Ht Hd]. simpl in Ht, Hd.
  unfold lookup_turn in Ht at 2. rewrite lookup_empty in Ht, Hd. done.
Qed.

Lemma X3_witness :
  ∃ st',
    run_batch (∅, init_slot_logger ["hotel-area"; "train-day"])
      [(ex_hotel_area, "east"); (ex_train_day, "monday")] = Ok st' ∧
    lookup_turn st'.1 "D1" 1 =
      (λ xv, {| turn_belief := ex_turn_belief xv.1;
                pred_belief :=
                  generated "D1" 1
                    [(ex_hotel_area, "east"); (ex_train_day, "monday")] |})
        <$> first_of_turn "D1" 1
              [(ex_hotel_area, "east"); (ex_train_day, "monday")] ∧
    domain <$> st'.1 !! "D1" =
      first_of_dialogue "D1" [(ex_hotel_area, "east"); (ex_train_day, "monday")]
        ≫= (λ xv, head (ex_domains xv.1)).
Proof.
  eexists. split; [vm_compute; reflexivity|].
  eapply (X3_run_batch_first_writer (init_slot_logger ["hotel-area"; "train-day"]) _
            [(ex_hotel_area, "east"); (ex_train_day, "monday")] "D1" 1).
  vm_compute; reflexivity.
Defined.


Lemma seen_total_pos (slot : string) (done : list (example * string)) :
  0 < seen_total slot done ↔ ∃ xv, xv ∈ done ∧ ex_slot_text xv.1 = slot.
Proof.
  unfold seen_total. split.
  - intros Hpos.
    destruct (filter (λ xv, ex_slot_text xv.1 = slot) done) as [|xv l] eqn:Hf;
      [simpl in Hpos; lia|].
    assert (Hin : xv ∈ filter (λ xv, ex_slot_text xv.1 = slot) done)
      by (rewrite Hf; apply list_elem_of_here).
    apply list_elem_of_filter in Hin as [Hs Hin]. by exists xv.
  - intros (xv & Hin & Hs).
    assert (Hf : xv ∈ filter (λ xv, ex_slot_text xv.1 = slot) done)
      by (by apply list_elem_of_filter).
    destruct (filter _ done); [by apply elem_of_nil in Hf | simpl; lia].
Qed.

(** The loop from any tallied state. *)
Lemma run_batch_Ok_gen (batch seen : list (example * string)) (st : state) :
  tallied seen st.2 →
  (∃ st', run_batch st batch = Ok st') ↔
  Forall (λ xv, ex_slot_text xv.1 ∈ dict_keys st.2) batch ∧
  domains_ok (dom st.1) batch.
Proof.
  revert seen st. induction batch as [|[ex value] batch IH]; intros seen st Ht.
  - split; [by intros _ | intros _; by eexists].
  - simpl. split.
    + intros [st' Hrun].
      destruct (process st (ex, value)) as [st1|] eqn:Hp; simpl in Hrun; [|done].
      apply process_Ok_inv in Hp as [Hi Hr].
      assert (Hin : ex_slot_text ex ∈ dict_keys st.2).
      { destruct (decide (ex_slot_text ex ∈ dict_keys st.2)) as [|Hout]; [done|].
        apply dict_get_None in Hout. by rewrite record_missing in Hr. }
      destruct (record_tallied seen ex value _ Ht Hin) as (l & Hl & Ht1 & Hk1).
      assert (l = st1.2) as -> by congruence.
      destruct (proj1 (IH _ _ Ht1) (ex_intro _ st' Hrun)) as [Hslots Hdoms].
      rewrite Hk1 in Hslots. rewrite (dom_ingest _ _ _ _ Hi) in Hdoms.
      split; [by constructor|]. split; [|done].
      destruct (st.1 !! ex_ID ex) as [dlg|] eqn:Hd.
      * left. apply elem_of_dom. eauto.
      * right. intros Hnil. by rewrite ingest_eq, Hd, Hnil in Hi.
    + intros [Hslots [Hdom Hdoms]].
      apply Forall_cons in Hslots as [Hin Hslots]. simpl in Hin.
      destruct (ingest_Ok ex value st.1) as [p Hp].
      { destruct Hdom as [Hseen|Hne]; [left; by apply elem_of_dom | by right]. }
      destruct (record_tallied seen ex value _ Ht Hin) as (l & Hl & Ht1 & Hk1).
      unfold process. simpl. rewrite Hp, bind_Ok, Hl, !bind_Ok.
      apply (IH (seen ++ [(ex, value)]) (p, l) Ht1). simpl.
      rewrite Hk1, (dom_ingest _ _ _ _ Hp). done.
Qed.

(** X4. The loop goes through exactly when every example names a slot of
    ALL_SLOTS and every example that opens a dialogue carries a domain; a
    domain-less example of a dialogue already seen is accepted. *)
Theorem X4_run_batch_Ok_iff (ALL_SLOTS : list string)
    (done : list (example * string)) :
  (∃ st', run_batch (∅, init_slot_logger ALL_SLOTS) done = Ok st') ↔
  Forall (λ xv, ex_slot_text xv.1 ∈ ALL_SLOTS) done ∧ domains_ok ∅ done.
Proof.
  destruct (init_slot_logger_tallied ALL_SLOTS) as [Ht Hk].
  rewrite (run_batch_Ok_gen done [] (∅, init_slot_logger ALL_SLOTS) Ht). simpl.
  rewrite dom_empty_L. split; intros [Hs Hd]; (split; [|done]);
    (eapply Forall_impl; [done|]); intros xv; apply Hk.
Qed.

(** X5. The pass ends normally exactly when the loop goes through, every
    slot of ALL_SLOTS occurs in some example, and evaluate_metrics returns:
    the slot names of the data have to be those of ALL_SLOTS, no fewer. *)
Theorem X5_evaluate_model_Ok_iff {Metric : Type}
    (evaluate_metrics : predictions_t → list string → pyresult (Metric * Metric * Metric))
    (results_exists : bool) (test_loader : list (list (example * string)))
    (ALL_SLOTS : list string) (prefix : string) :
  (∃ trace predictions,
     evaluate_model evaluate_metrics results_exists test_loader ALL_SLOTS prefix =
       (trace, Ok predictions)) ↔
  (∃ st m,
     run_loader (∅, init_slot_logger ALL_SLOTS) test_loader = Ok st ∧
     evaluate_metrics st.1 ALL_SLOTS = Ok m) ∧
  (∀ slot, slot ∈ ALL_SLOTS →
           ∃ xv, xv ∈ flatten test_loader ∧ ex_slot_text xv.1 = slot).
Proof.
  unfold evaluate_model. split.
  - intros (trace & predictions & Hev).
    destruct (run_loader _ test_loader) as [[predictions0 slot_logger0]|] eqn:Hrun;
      [|done].
    destruct (finalize slot_logger0) as [slot_logger|] eqn:Hfin; [|done].
    destruct (evaluate_metrics predictions0 ALL_SLOTS) as [m|] eqn:Hem;
      [|done].
    split; [by exists (predictions0, slot_logger0), m|].
    intros slot Hin. apply seen_total_pos.
    destruct (run_loader_tallied _ _ _ Hrun) as [Ht Hkeys]. simpl in *.
    apply Hkeys in Hin. pose proof (tallied_keys_get _ _ _ Ht Hin) as Hg.
    destruct (finalize_get _ _ _ _ Hfin Hg) as (l' & Hl' & _).
    apply set_ratio_int_inv in Hl' as [Hnz _].
    pose proof (seen_hits_le slot (flatten test_loader)). lia.
  - intros [(st & m & Hrun & Hem) Hall]. destruct st as [predictions slot_logger].
    rewrite Hrun. destruct (run_loader_tallied _ _ _ Hrun) as [[Hnd Htal] Hkeys].
    simpl in *.
    destruct (finalize_tallied (flatten test_loader) slot_logger Htal)
      as [slot_logger' ->].
    { apply Forall_forall. intros [k l] Hin. simpl. apply seen_total_pos, Hall, Hkeys.
      apply list_elem_of_fmap. by exists (k, l). }
    rewrite Hem. destruct m as [[joint f1] turn_acc]. by eexists _, _.
Qed.

(** X6. Only the order of the examples matters, not how the loader cuts
    them into batches: two loaders with the same examples in the same
    order give the same trace and the same result. *)
Theorem X6_evaluate_model_batching {Metric : Type}
    (evaluate_metrics : predictions_t → list string → pyresult (Metric * Metric * Metric))
    (results_exists : bool) (test_loader1 test_loader2 : list (list (example * string)))
    (ALL_SLOTS : list string) (prefix : string) :
  flatten test_loader1 = flatten test_loader2 →
  evaluate_model evaluate_metrics results_exists test_loader1 ALL_SLOTS prefix =
  evaluate_model evaluate_metrics results_exists test_loader2 ALL_SLOTS prefix.
Proof.
  intros Heq. unfold evaluate_model. by rewrite !run_loader_flatten, Heq.
Qed.

Lemma X6_witness :
  flatten [[(ex_hotel_area, "east")]; [(ex_hotel_stars, "none")]] =
    flatten [[(ex_hotel_area, "east"); (ex_hotel_stars, "none")]; []] ∧
  evaluate_model constant_metrics true
    [[(ex_hotel_area, "east")]; [(ex_hotel_stars, "none")]]
    ["hotel-area"; "hotel-stars"] "zeroshot" =
  evaluate_model constant_metrics true
    [[(ex_hotel_area, "east"); (ex_hotel_stars, "none")]; []]
    ["hotel-area"; "hotel-stars"] "zeroshot".
Proof.
  split; [reflexivity|].
  exact (X6_evaluate_model_batching constant_metrics true _ _ _ "zeroshot" eq_refl).
Defined.

(** X7. Whatever happens, the files written are none, or the slot accuracy
    and prediction files, or all three in that order.  All three are
    written exactly when the pass ends normally; the first two alone are
    left behind exactly when evaluate_metrics raised, with its exception
    as the outcome; an exception of the loop or of the finalisation leaves
    nothing. *)
Theorem X7_evaluate_model_files {Metric : Type}
    (evaluate_metrics : predictions_t → list string → pyresult (Metric * Metric * Metric))
    (results_exists : bool) (test_loader : list (list (example * string)))
    (ALL_SLOTS : list string) (prefix : string)
    (trace : list event) (res : pyresult predictions_t) :
  evaluate_model evaluate_metrics results_exists test_loader ALL_SLOTS prefix =
    (trace, res) →
  (∃ predictions,
     res = Ok predictions ∧
     dumped_files trace =
       [prefix +:+ "_slot_acc.json"; prefix +:+ "_prediction.json";
        prefix +:+ "_result.json"]) ∨
  (∃ e st,
     res = Raise e ∧
     run_loader (∅, init_slot_logger ALL_SLOTS) test_loader = Ok st ∧
     evaluate_metrics st.1 ALL_SLOTS = Raise e ∧
     dumped_files trace =
       [prefix +:+ "_slot_acc.json"; prefix +:+ "_prediction.json"]) ∨
  (∃ e,
     res = Raise e ∧
     (run_loader (∅, init_slot_logger ALL_SLOTS) test_loader = Raise e ∨
      ∃ st, run_loader (∅, init_slot_logger ALL_SLOTS) test_loader = Ok st ∧
            finalize st.2 = Raise e) ∧
     dumped_files trace = []).
Proof.
  unfold evaluate_model.
  destruct (run_loader _ test_loader) as [[predictions0 slot_logger0]|e] eqn:Hrun.
  - destruct (finalize slot_logger0) as [slot_logger|e] eqn:Hfin.
    + destruct (evaluate_metrics predictions0 ALL_SLOTS) as [[[joint f1] turn_acc]|e]
        eqn:Hem; intros [= <- <-].
      * left. eexists. split; [done|]. by destruct results_exists.
      * right; left. exists e, (predictions0, slot_logger0).
        repeat split; try done. by destruct results_exists.
    + intros [= <- <-]. right; right. exists e.
      split; [done|]. split; [|by destruct results_exists].
      right. by exists (predictions0, slot_logger0).
  - intros [= <- <-]. right; right. exists e.
    split; [done|]. split; [by left | by destruct results_exists].
Qed.

Lemma X7_witness :
  evaluate_model (λ _ _, Raise (OtherError "metrics") : pyresult (nat * nat * nat))
    false [[(ex_hotel_area, "east")]] ["hotel-area"] "zeroshot" =
    ([Makedirs;
      Dump "zeroshot_slot_acc.json"
        (SlotAccDoc [("hotel-area", [PyInt 1; PyInt 1; PyFloat float_1])]);
      Dump "zeroshot_prediction.json" (PredictionDoc seen_hotel_area);
      Call_evaluate_metrics],
     Raise (OtherError "metrics")) ∧
  dumped_files (Metric := nat)
    [Makedirs;
     Dump "zeroshot_slot_acc.json"
       (SlotAccDoc [("hotel-area", [PyInt 1; PyInt 1; PyFloat float_1])]);
     Dump "zeroshot_prediction.json" (PredictionDoc seen_hotel_area);
     Call_evaluate_metrics] =
    ["zeroshot_slot_acc.json"; "zeroshot_prediction.json"].
Proof.
  assert (H : evaluate_model
                (λ _ _, Raise (OtherError "metrics") : pyresult (nat * nat * nat))
                false [[(ex_hotel_area, "east")]] ["hotel-area"] "zeroshot" =
    ([Makedirs;
      Dump "zeroshot_slot_acc.json"
        (SlotAccDoc [("hotel-area", [PyInt 1; PyInt 1; PyFloat float_1])]);
      Dump "zeroshot_prediction.json" (PredictionDoc seen_hotel_area);
      Call_evaluate_metrics],
     Raise (OtherError "metrics"))) by (vm_compute; reflexivity).
  split; [exact H|].
  destruct (X7_evaluate_model_files _ _ _ _ _ _ _ H)
    as [(p & Hp & _)|[(e & st & _ & _ & _ & Hf)|(e & _ & _ & Hf)]];
    [discriminate Hp | exact Hf | discriminate Hf].
Defined.


Lemma seen_total_cons (slot : string) (ex : example) (value : string)
    (done : list (example * string)) :
  seen_total slot ((ex, value) :: done) =
    (if decide (ex_slot_text ex = slot) then 1 else 0) + seen_total slot done.
Proof.
  unfold seen_total. rewrite filter_cons. simpl. case_decide; simpl; lia.
Qed.

Lemma sum_indicator (ks : list string) (s : string) :
  NoDup ks → s ∈ ks →
  foldr (λ k acc, (if decide (s = k) then 1 else 0) + acc) 0 ks = 1.
Proof.
  induction ks as [|k ks IH]; intros Hnd Hin; [by apply elem_of_nil in Hin|].
  apply NoDup_cons in Hnd as [Hk Hnd]. simpl.
  destruct (decide (s = k)) as [->|Hne].
  - assert (Hz : ∀ l : list string, k ∉ l →
      foldr (λ k0 acc, (if decide (k = k0) then 1 else 0) + acc) 0 l = 0).
    { clear. induction l as [|x l IHl]; intros Hx; [done|]. simpl.
      apply not_elem_of_cons in Hx as [Hne Hx].
      rewrite decide_False by done. by rewrite IHl. }
    rewrite Hz by done. lia.
  - apply elem_of_cons in Hin as [?|Hin]; [done|]. by rewrite IH.
Qed.

Lemma sum_seen_total (ks : list string) (done : list (example * string)) :
  NoDup ks →
  Forall (λ xv, ex_slot_text xv.1 ∈ ks) done →
  foldr (λ k acc, seen_total k done + acc) 0 ks = Z.of_nat (length done).
Proof.
  intros Hnd. induction done as [|[ex value] done IH]; intros Hall.
  - clear. induction ks as [|k ks IHk]; [done|]. simpl. by rewrite IHk.
  - apply Forall_cons in Hall as [Hin Hall]. simpl in Hin.
    transitivity
      (foldr (λ k acc, (if decide (ex_slot_text ex = k) then 1 else 0) + acc) 0 ks
       + foldr (λ k acc, seen_total k done + acc) 0 ks).
    + clear. induction ks as [|k ks IHk]; [done|]. simpl.
      rewrite IHk, seen_total_cons. lia.
    + rewrite sum_indicator, IH by done. simpl length. lia.
Qed.

Lemma logged_total_tallied (done : list (example * string))
    (slot_logger : slot_logger_t) :
  Forall (λ kv, kv.2 = tally kv.1 done) slot_logger →
  logged_total slot_logger =
    foldr (λ k acc, seen_total k done + acc) 0 (dict_keys slot_logger).
Proof.
  unfold logged_total, dict_keys.
  induction 1 as [|[k l] d Hl _ IH]; [done|]. simpl in *. subst l. simpl.
  by rewrite IH.
Qed.

(** X8. Every example is counted once: when the loop has gone through, the
    totals of all slots add up to the number of examples processed, and
    for each slot the hits are between 0 and the total. *)
Theorem X8_run_batch_logged_total (ALL_SLOTS : list string)
    (done : list (example * string)) (st : state) :
  run_batch (∅, init_slot_logger ALL_SLOTS) done = Ok st →
  logged_total st.2 = Z.of_nat (length done) ∧
  Forall (λ kv, ∃ t h, kv.2 = [PyInt t; PyInt h; PyInt 0] ∧ 0 ≤ h ≤ t) st.2.
Proof.
  intros Hrun.
  destruct (init_slot_logger_tallied ALL_SLOTS) as [Ht Hk].
  destruct (run_batch_tallied [] (∅, init_slot_logger ALL_SLOTS) _ _ Ht Hrun)
    as [[Hnd Htal] Hkeys]. simpl in *.
  split.
  - rewrite (logged_total_tallied done) by done.
    apply sum_seen_total; [done|].
    destruct (proj1 (run_batch_Ok_gen done [] (∅, init_slot_logger ALL_SLOTS) Ht)
                (ex_intro _ st Hrun)) as [Hslots _].
    simpl in Hslots. by rewrite Hkeys.
  - eapply Forall_impl; [done|]. intros [k l] ->. simpl.
    eexists _, _. split; [done|]. apply seen_hits_le.
Qed.

Lemma X8_witness :
  ∃ st,
    run_batch (∅, init_slot_logger ["hotel-area"; "hotel-stars"])
      [(ex_hotel_area, "east"); (ex_hotel_stars, "4"); (ex_hotel_area, "west")] =
      Ok st ∧
    logged_total st.2 =
      Z.of_nat (length [(ex_hotel_area, "east"); (ex_hotel_stars, "4");
                        (ex_hotel_area, "west")]) ∧
    Forall (λ kv, ∃ t h, kv.2 = [PyInt t; PyInt h; PyInt 0] ∧ 0 ≤ h ≤ t) st.2.
Proof.
  eexists. split; [vm_compute; reflexivity|].
  eapply (X8_run_batch_logged_total ["hotel-area"; "hotel-stars"]).
  vm_compute; reflexivity.
Defined.

Lemma truediv_same (t : Z) :
  0 < t → py_truediv (PyInt t) (PyInt t) = Ok (PyFloat float_1).
Proof.
  intros Ht. unfold py_truediv. case_decide; [lia|].
  destruct t as [|m|m]; [lia| |lia]. simpl exact_int. unfold SFdiv, SFdiv_core_binary.
  rewrite !Z.add_0_r, !Z.sub_diag.
  change (Z.min (fexp prec emax 0) 0) with (-53).
  change (0 - -53) with 53. cbv iota beta.
  rewrite Z.shiftl_mul_pow2 by lia.
  pose proof (Z.div_mul (2 ^ 53) (Z.pos m) ltac:(lia)) as Hq.
  pose proof (Z.mod_mul (2 ^ 53) (Z.pos m) ltac:(lia)) as Hr.
  rewrite (Z.mul_comm (2 ^ 53)) in Hq, Hr. unfold Z.div, Z.modulo in Hq, Hr.
  destruct (Z.div_eucl (Z.pos m * 2 ^ 53) (Z.pos m)) as [q r].
  simpl in Hq, Hr. subst q r.
  assert (Hloc : new_location (Z.pos m) 0 = loc_Exact).
  { unfold new_location. by destruct (Z.even (Z.pos m)). }
  rewrite Hloc. reflexivity.
Qed.

Lemma truediv_zero (t : Z) :
  0 < t → py_truediv (PyInt 0) (PyInt t) = Ok (PyFloat float_0).
Proof.
  intros Ht. unfold py_truediv. case_decide; [lia|].
  destruct t as [|m|m]; [lia| |lia]. reflexivity.
Qed.

(** X9. A slot whose examples were all hits is finalized to the ratio 1.0
    exactly, and a slot that was never hit to 0.0 exactly, whatever the
    total. *)
Theorem X9_finalize_all_or_nothing (slot_logger slot_logger' : slot_logger_t)
    (slot : string) (t h : Z) (r : pynum) :
  dict_get slot_logger slot = Some [PyInt t; PyInt h; r] →
  0 < t →
  finalize slot_logger = Ok slot_logger' →
  (h = t → dict_get slot_logger' slot = Some [PyInt t; PyInt t; PyFloat float_1]) ∧
  (h = 0 → dict_get slot_logger' slot = Some [PyInt t; PyInt 0; PyFloat float_0]).
Proof.
  intros Hg Ht Hfin.
  destruct (finalize_get _ _ _ _ Hfin Hg) as (l' & Hl' & ->).
  apply set_ratio_int_inv in Hl' as [_ (f & Hdiv & ->)].
  split; intros ->.
  - rewrite truediv_same in Hdiv by done. by simplify_eq.
  - rewrite truediv_zero in Hdiv by done. by simplify_eq.
Qed.

Lemma X9_witness :
  dict_get [("hotel-area", [PyInt 3; PyInt 3; PyInt 0]);
            ("hotel-stars", [PyInt 5; PyInt 0; PyInt 0])] "hotel-area" =
    Some [PyInt 3; PyInt 3; PyInt 0] ∧
  0 < 3 ∧
  finalize [("hotel-area", [PyInt 3; PyInt 3; PyInt 0]);
            ("hotel-stars", [PyInt 5; PyInt 0; PyInt 0])] =
    Ok [("hotel-area", [PyInt 3; PyInt 3; PyFloat float_1]);
        ("hotel-stars", [PyInt 5; PyInt 0; PyFloat float_0])] ∧
  (3 = 3 →
   dict_get [("hotel-area", [PyInt 3; PyInt 3; PyFloat float_1]);
             ("hotel-stars", [PyInt 5; PyInt 0; PyFloat float_0])] "hotel-area" =
     Some [PyInt 3; PyInt 3; PyFloat float_1]).
Proof.
  split; [reflexivity|]. split; [lia|]. split; [reflexivity|].
  exact (proj1 (X9_finalize_all_or_nothing
                  [("hotel-area", [PyInt 3; PyInt 3; PyInt 0]);
                   ("hotel-stars", [PyInt 5; PyInt 0; PyInt 0])]
                  [("hotel-area", [PyInt 3; PyInt 3; PyFloat float_1]);
                   ("hotel-stars", [PyInt 5; PyInt 0; PyFloat float_0])]
                  "hotel-area" 3 3 (PyInt 0) eq_refl ltac:(lia) eq_refl)).
Defined.

(** X10. With no example at all, in no batch or in empty batches only, the
    pass fails with ZeroDivisionError as soon as ALL_SLOTS names a slot,
    and nothing is written. *)
Theorem X10_evaluate_model_no_examples {Metric : Type}
    (evaluate_metrics : predictions_t → list string → pyresult (Metric * Metric * Metric))
    (results_exists : bool) (test_loader : list (list (example * string)))
    (ALL_SLOTS : list string) (prefix : string) :
  flatten test_loader = [] →
  ALL_SLOTS ≠ [] →
  evaluate_model evaluate_metrics results_exists test_loader ALL_SLOTS prefix =
    (if results_exists then [] else [Makedirs], Raise ZeroDivisionError).
Proof.
  intros Hnil Hne. unfold evaluate_model.
  rewrite run_loader_flatten, Hnil. simpl.
  destruct (init_slot_logger_tallied ALL_SLOTS) as [[_ Hall] Hk].
  rewrite (finalize_zero_total [] (init_slot_logger ALL_SLOTS) Hall); [done|].
  destruct ALL_SLOTS as [|slot ALL_SLOTS]; [done|].
  assert (Hin : slot ∈ dict_keys (init_slot_logger (slot :: ALL_SLOTS)))
    by (apply Hk, list_elem_of_here).
  apply list_elem_of_fmap in Hin as ([k l] & _ & Hin).
  apply Exists_exists. exists (k, l). split; [done|].
  eapply Forall_forall in Hall; [|done]. simpl in Hall. by rewrite Hall.
Qed.

Lemma X10_witness :
  flatten [[]; []] = [] ∧
  ["hotel-area"] ≠ [] ∧
  evaluate_model constant_metrics false [[]; []] ["hotel-area"] "zeroshot" =
    ([Makedirs], Raise ZeroDivisionError).
Proof.
  assert (Hne : ["hotel-area"] ≠ []) by (intros Heq; discriminate Heq).
  split; [reflexivity|]. split; [exact Hne|].
  exact (X10_evaluate_model_no_examples constant_metrics false [[]; []]
           ["hotel-area"] "zeroshot" eq_refl Hne).
Defined.


Lemma dict_keys_fold_setitem {V : Type} (v0 : V) (l : list string)
    (d : list (string * V)) :
  dict_keys (fold_left (λ d s, dict_setitem d s v0) l d) =
    fold_left (λ acc x, if decide (x ∈ acc) then acc else acc ++ [x]) l
      (dict_keys d).
Proof.
  revert d. induction l as [|s l IH]; intros d; [done|]. simpl. rewrite IH.
  f_equal. destruct (dict_get d s) as [v|] eqn:Hg.
  - rewrite decide_True by (by eapply dict_get_Some_keys).
    by erewrite dict_keys_setitem_Some.
  - rewrite decide_False by (by apply dict_get_None).
    by rewrite dict_keys_setitem_None.
Qed.

Lemma first_occurrences_NoDup (l : list string) :
  NoDup l → first_occurrences l = l.
Proof.
  unfold first_occurrences.
  assert (Hgen : ∀ acc, NoDup (acc ++ l) →
    fold_left (λ acc x, if decide (x ∈ acc) then acc else acc ++ [x]) l acc =
      acc ++ l).
  { induction l as [|x l IH]; intros acc Hnd; simpl; [by rewrite app_nil_r|].
    apply NoDup_app in Hnd as Hnd'. destruct Hnd' as (_ & Hdisj & _).
    rewrite decide_False by (intros Hin; apply (Hdisj x Hin), list_elem_of_here).
    rewrite IH; rewrite <- app_assoc; done. }
  intros Hnd. by apply (Hgen []).
Qed.

(** X11. The slot accuracy document lists the slots in the order of
    ALL_SLOTS, each at its first occurrence there; when ALL_SLOTS has no
    repetition the keys of the document are ALL_SLOTS itself. *)
Theorem X11_slot_acc_order {Metric : Type}
    (evaluate_metrics : predictions_t → list string → pyresult (Metric * Metric * Metric))
    (results_exists : bool) (test_loader : list (list (example * string)))
    (ALL_SLOTS : list string) (prefix : string)
    (trace : list event) (predictions : predictions_t) :
  evaluate_model evaluate_metrics results_exists test_loader ALL_SLOTS prefix =
    (trace, Ok predictions) →
  ∃ slot_logger,
    Dump (prefix +:+ "_slot_acc.json") (SlotAccDoc slot_logger) ∈ trace ∧
    dict_keys slot_logger = first_occurrences ALL_SLOTS ∧
    (NoDup ALL_SLOTS → dict_keys slot_logger = ALL_SLOTS).
Proof.
  unfold evaluate_model.
  destruct (run_loader _ test_loader) as [[predictions0 slot_logger0]|] eqn:Hrun;
    [|done].
  destruct (finalize slot_logger0) as [slot_logger|] eqn:Hfin; [|done].
  destruct (evaluate_metrics predictions0 ALL_SLOTS) as [[[joint f1] turn_acc]|];
    [|done].
  intros [= <- <-]. exists slot_logger.
  assert (Hkeys : dict_keys slot_logger = first_occurrences ALL_SLOTS).
  { rewrite (finalize_keys _ _ Hfin). rewrite run_loader_flatten in Hrun.
    destruct (init_slot_logger_tallied ALL_SLOTS) as [Ht _].
    destruct (run_batch_tallied [] (∅, init_slot_logger ALL_SLOTS) _ _ Ht Hrun)
      as [_ Hk]. simpl in Hk. rewrite Hk.
    unfold init_slot_logger. by rewrite dict_keys_fold_setitem. }
  split; [|split; [done|]].
  - rewrite <- app_assoc. apply elem_of_app. right.
    apply elem_of_app. left. apply list_elem_of_here.
  - intros Hnd. by rewrite Hkeys, first_occurrences_NoDup.
Qed.

Lemma X11_witness :
  evaluate_model constant_metrics true
    [[(ex_hotel_stars, "none"); (ex_hotel_area, "east")]]
    ["hotel-area"; "hotel-stars"; "hotel-area"] "zeroshot" =
    ([Dump "zeroshot_slot_acc.json"
        (SlotAccDoc [("hotel-area", [PyInt 1; PyInt 1; PyFloat float_1]);
                     ("hotel-stars", [PyInt 1; PyInt 1; PyFloat float_1])]);
      Dump "zeroshot_prediction.json" (PredictionDoc seen_hotel_area);
      Call_evaluate_metrics;
      Print_line "zeroshot result:"
        (MetricsDoc [("Joint Acc", 1%nat); ("Turn Acc", 1%nat); ("Joint F1", 1%nat)]);
      Dump "zeroshot_result.json"
        (MetricsDoc [("Joint Acc", 1%nat); ("Turn Acc", 1%nat); ("Joint F1", 1%nat)])],
     Ok seen_hotel_area) ∧
  ∃ slot_logger : slot_logger_t,
    dict_keys slot_logger =
      first_occurrences ["hotel-area"; "hotel-stars"; "hotel-area"].
Proof.
  assert (H : evaluate_model constant_metrics true
    [[(ex_hotel_stars, "none"); (ex_hotel_area, "east")]]
    ["hotel-area"; "hotel-stars"; "hotel-area"] "zeroshot" =
    ([Dump "zeroshot_slot_acc.json"
        (SlotAccDoc [("hotel-area", [PyInt 1; PyInt 1; PyFloat float_1]);
                     ("hotel-stars", [PyInt 1; PyInt 1; PyFloat float_1])]);
      Dump "zeroshot_prediction.json" (PredictionDoc seen_hotel_area);
      Call_evaluate_metrics;
      Print_line "zeroshot result:"
        (MetricsDoc [("Joint Acc", 1%nat); ("Turn Acc", 1%nat); ("Joint F1", 1%nat)]);
      Dump "zeroshot_result.json"
        (MetricsDoc [("Joint Acc", 1%nat); ("Turn Acc", 1%nat); ("Joint F1", 1%nat)])],
     Ok seen_hotel_area)) by (vm_compute; reflexivity).
  split; [exact H|].
  destruct (X11_slot_acc_order _ _ _ _ _ _ _ H) as (slot_logger & _ & Hk & _).
  by exists slot_logger.
Defined.


(** * Properties of [fine_tune] and [train] *)

Lemma string_prefix_cons (c c' : Ascii.ascii) (sub s : string) :
  String.prefix (String c sub) (String c' s) =
    if Ascii.ascii_dec c c' then String.prefix sub s else false.
Proof. reflexivity. Qed.

Lemma string_prefix_spec (sub s : string) :
  String.prefix sub s = true ↔ ∃ b, s = sub +:+ b.
Proof.
  revert s. induction sub as [|c sub IH]; intros s.
  - split; [intros _; by exists s | by destruct s].
  - destruct s as [|c' s]; [split; [done | by intros [b ?]]|].
    rewrite string_prefix_cons.
    destruct (Ascii.ascii_dec c c') as [->|Hne].
    + rewrite IH. split; intros [b Hb]; exists b.
      * simpl. by rewrite Hb.
      * simpl in Hb. by injection Hb.
    + split; [done|]. intros [b Hb]. simpl in Hb. injection Hb as Hc _. done.
Qed.

Lemma str_contains_nil (sub : string) :
  str_contains sub EmptyString = String.prefix sub EmptyString.
Proof. simpl. by rewrite orb_false_r. Qed.

Lemma str_contains_cons (sub : string) (c : Ascii.ascii) (s : string) :
  str_contains sub (String c s) =
    String.prefix sub (String c s) || str_contains sub s.
Proof. reflexivity. Qed.

(** [str_contains] is the occurrence of one string in another. *)
Lemma str_contains_spec (sub s : string) :
  str_contains sub s = true ↔ occurs_in sub s.
Proof.
  unfold occurs_in. induction s as [|c s IH].
  - rewrite str_contains_nil, string_prefix_spec. split.
    + intros [b Hb]. by exists EmptyString, b.
    + intros (a & b & Hab). destruct a; [by exists b|done].
  - rewrite str_contains_cons, orb_true_iff, IH, string_prefix_spec. split.
    + intros [[b Hb]|(a & b & ->)].
      * by exists EmptyString, b.
      * by exists (String c a), b.
    + intros (a & b & Hab). destruct a as [|c' a].
      * left. by exists b.
      * right. simpl in Hab. injection Hab as _ Hab. by exists a, b.
Qed.

Lemma pick_fold_none (ckpt : string) (l : list string) (od : string) :
  Forall (λ d, ¬ occurs_in d ckpt) l →
  fold_left (λ od d, if str_contains d ckpt then d else od) l od = od.
Proof.
  revert od. induction l as [|d l IH]; intros od Hall; [done|].
  apply Forall_cons in Hall as [Hd Hall]. simpl.
  destruct (str_contains d ckpt) eqn:Hc; [by apply str_contains_spec in Hc|].
  by apply IH.
Qed.

Lemma pick_fold_last (ckpt : string) (l1 l2 : list string) (d od : string) :
  occurs_in d ckpt →
  Forall (λ d', ¬ occurs_in d' ckpt) l2 →
  fold_left (λ od d, if str_contains d ckpt then d else od) (l1 ++ d :: l2) od = d.
Proof.
  intros Hd Hall. rewrite fold_left_app. simpl.
  apply str_contains_spec in Hd. rewrite Hd. by apply pick_fold_none.
Qed.

Lemma pick_fold_cases (ckpt : string) (l : list string) (od : string) :
  let r := fold_left (λ od d, if str_contains d ckpt then d else od) l od in
  (r = od ∧ Forall (λ d, ¬ occurs_in d ckpt) l) ∨
  (∃ l1 l2, l = l1 ++ r :: l2 ∧ occurs_in r ckpt ∧
            Forall (λ d, ¬ occurs_in d ckpt) l2).
Proof.
  induction l as [|d l IH] using rev_ind; simpl; [by left|].
  rewrite fold_left_app. simpl.
  destruct (str_contains d ckpt) eqn:Hc.
  - right. exists l, []. split; [done|]. split; [by apply str_contains_spec|done].
  - assert (Hd : ¬ occurs_in d ckpt).
    { intros Ho. apply str_contains_spec in Ho. congruence. }
    destruct IH as [[Hr Hall]|(l1 & l2 & Hl & Ho & Hall)].
    + left. split; [done|]. apply Forall_app. by split; [|constructor].
    + right. exists l1, (l2 ++ [d]). split; [|split; [done|]].
      * rewrite Hl at 1. by rewrite <- app_assoc.
      * apply Forall_app. by split; [|constructor].
Qed.

(** X12. The domain that fine_tune settles on is the last one of hotel,
    train, restaurant, attraction, taxi (in that order) that occurs
    anywhere in the checkpoint's name, whatever only_domain was given; it
    is the given only_domain exactly when none of the five occurs. *)
Theorem X12_pick_only_domain (model_checkpoint only_domain : string) :
  (Forall (λ d, ¬ occurs_in d model_checkpoint) fine_tune_domains →
   pick_only_domain model_checkpoint only_domain = only_domain) ∧
  (∀ l1 d l2,
     fine_tune_domains = l1 ++ d :: l2 →
     occurs_in d model_checkpoint →
     Forall (λ d', ¬ occurs_in d' model_checkpoint) l2 →
     pick_only_domain model_checkpoint only_domain = d).
Proof.
  unfold pick_only_domain. split.
  - apply pick_fold_none.
  - intros l1 d l2 -> Hd Hall. by apply pick_fold_last.
Qed.

Lemma X12_witness :
  occurs_in "train" "save/t5-small_except_domain_train_slotlang_none" ∧
  pick_only_domain "save/t5-small_except_domain_train_slotlang_none" "hotel" =
    "train".
Proof.
  assert (Hd : occurs_in "train" "save/t5-small_except_domain_train_slotlang_none")
    by (by exists "save/t5-small_except_domain_", "_slotlang_none").
  split; [exact Hd|].
  apply (proj2 (X12_pick_only_domain
                  "save/t5-small_except_domain_train_slotlang_none" "hotel")
           ["hotel"] "train" ["restaurant"; "attraction"; "taxi"] eq_refl Hd).
  repeat constructor; intros Ho; apply str_contains_spec in Ho; discriminate Ho.
Defined.

(** X13. The assertion of fine_tune fails exactly when only_domain is
    "none" and none of the five domain names occurs in the checkpoint's
    name; otherwise the settled domain is returned, and it is either one
    of the five, occurring in the name, or the only_domain given. *)
Theorem X13_check_only_domain (model_checkpoint only_domain : string) :
  (∀ e, check_only_domain model_checkpoint only_domain = Raise e ↔
        e = OtherError "AssertionError" ∧ only_domain = "none" ∧
        Forall (λ d, ¬ occurs_in d model_checkpoint) fine_tune_domains) ∧
  (∀ r, check_only_domain model_checkpoint only_domain = Ok r →
        r ≠ "none" ∧
        (r = only_domain ∨ (r ∈ fine_tune_domains ∧ occurs_in r model_checkpoint))).
Proof.
  unfold check_only_domain, pick_only_domain.
  pose proof (pick_fold_cases model_checkpoint fine_tune_domains only_domain) as Hc.
  cbv zeta in Hc.
  set (r0 := fold_left _ fine_tune_domains only_domain) in *.
  split.
  - intros e. case_decide as Hr.
    + split; [done|]. intros (_ & -> & Hall). exfalso. apply Hr.
      unfold r0. by apply pick_fold_none.
    + assert (r0 = "none") as Hn by (by destruct (decide (r0 = "none")); [|]).
      split.
      * intros [= <-]. split; [done|].
        destruct Hc as [[Heq Hall]|(l1 & l2 & Hl & _ & _)]; [by rewrite <- Heq|].
        exfalso. assert (Hin : r0 ∈ fine_tune_domains)
          by (rewrite Hl; apply elem_of_app; right; apply list_elem_of_here).
        rewrite Hn in Hin. unfold fine_tune_domains in Hin.
        repeat (apply elem_of_cons in Hin as [Hin|Hin]; [discriminate Hin|]).
        by apply elem_of_nil in Hin.
      * by intros (-> & _ & _).
  - intros r. case_decide as Hr; [|done]. intros [= <-]. split; [done|].
    destruct Hc as [[Heq _]|(l1 & l2 & Hl & Ho & _)]; [by left|right].
    split; [|done]. rewrite Hl. apply elem_of_app. right. apply list_elem_of_here.
Qed.


Lemma string_app_assoc (a b c : string) : (a +:+ b) +:+ c = a +:+ b +:+ c.
Proof.
  induction a as [|x a IH]; [reflexivity|].
  change (String x ((a +:+ b) +:+ c) = String x (a +:+ b +:+ c)).
  by rewrite IH.
Qed.

Lemma occurs_in_app (d pre post : string) : occurs_in d (pre +:+ d +:+ post).
Proof. by exists pre, post. Qed.

Lemma occurs_in_prepend (d a s : string) : occurs_in d s → occurs_in d (a +:+ s).
Proof.
  intros (pre & post & ->). exists (a +:+ pre), post. by rewrite string_app_assoc.
Qed.

(** [os.path.join] keeps its second argument at the end. *)
Lemma path_join_suffix (a b : string) : ∃ a', path_join a b = a' +:+ b.
Proof.
  unfold path_join. destruct (String.prefix "/" b); [by exists EmptyString|].
  destruct (_ || _); [by exists a|].
  exists (a +:+ "/"). by rewrite string_app_assoc.
Qed.

Lemma occurs_in_train_save_path
    (saving_dir model_checkpoint model_name except_domain slot_lang lr n_epochs seed
       : string) :
  occurs_in except_domain
    (train_save_path saving_dir model_checkpoint model_name except_domain
       slot_lang lr n_epochs seed).
Proof.
  unfold train_save_path.
  destruct (path_join_suffix saving_dir
              (train_model_name model_checkpoint model_name except_domain slot_lang
                 lr n_epochs seed)) as [a' ->].
  apply occurs_in_prepend. unfold train_model_name.
  exists (model_checkpoint +:+ model_name +:+ "_except_domain_"),
    ("_slotlang_" +:+ slot_lang +:+ "_lr_" +:+ lr +:+ "_epoch_" +:+ n_epochs
       +:+ "_seed_" +:+ seed).
  by rewrite !string_app_assoc.
Qed.

(** X14. fine_tune accepts every checkpoint that train saved for an
    except_domain among the five: the assertion holds whatever only_domain
    is given, the domain it settles on is one of the five and occurs in the
    path, and it is except_domain itself when none of the domains listed
    after it occurs in the path. *)
Theorem X14_fine_tune_after_train
    (saving_dir model_checkpoint model_name except_domain slot_lang lr n_epochs seed
       only_domain : string) (l1 l2 : list string) :
  fine_tune_domains = l1 ++ except_domain :: l2 →
  ∃ r,
    check_only_domain
      (train_save_path saving_dir model_checkpoint model_name except_domain
         slot_lang lr n_epochs seed) only_domain = Ok r ∧
    r ∈ fine_tune_domains ∧
    occurs_in r
      (train_save_path saving_dir model_checkpoint model_name except_domain
         slot_lang lr n_epochs seed) ∧
    (Forall (λ d, ¬ occurs_in d
                    (train_save_path saving_dir model_checkpoint model_name
                       except_domain slot_lang lr n_epochs seed)) l2 →
     r = except_domain).
Proof.
  intros Hlist.
  pose proof (occurs_in_train_save_path saving_dir model_checkpoint model_name
                except_domain slot_lang lr n_epochs seed) as Hocc.
  set (path := train_save_path _ _ _ _ _ _ _ _) in *.
  unfold check_only_domain, pick_only_domain.
  pose proof (pick_fold_cases path fine_tune_domains only_domain) as Hc.
  cbv zeta in Hc. set (r0 := fold_left _ fine_tune_domains only_domain) in *.
  assert (Hr0 : r0 ∈ fine_tune_domains ∧ occurs_in r0 path).
  { destruct Hc as [[_ Hall]|(k1 & k2 & Hk & Ho & _)].
    - exfalso. rewrite Hlist in Hall. apply Forall_app in Hall as [_ Hall].
      apply Forall_cons in Hall as [Hed _]. done.
    - split; [|done]. rewrite Hk. apply elem_of_app. right. apply list_elem_of_here. }
  destruct Hr0 as [Hin Ho]. exists r0.
  rewrite decide_True.
  - repeat split; try done. intros Hall. unfold r0. rewrite Hlist.
    by apply pick_fold_last.
  - intros Hn. rewrite Hn in Hin. unfold fine_tune_domains in Hin.
    repeat (apply elem_of_cons in Hin as [Hin|Hin]; [discriminate Hin|]).
    by apply elem_of_nil in Hin.
Qed.

Lemma X14_witness :
  fine_tune_domains = ["hotel"] ++ "train" :: ["restaurant"; "attraction"; "taxi"] ∧
  ∃ r,
    check_only_domain
      (train_save_path "save" "t5-small" "t5" "train" "none" "0.0001" "5" "557")
      "none" = Ok r ∧
    r ∈ fine_tune_domains ∧
    occurs_in r
      (train_save_path "save" "t5-small" "t5" "train" "none" "0.0001" "5" "557") ∧
    (Forall (λ d, ¬ occurs_in d
                    (train_save_path "save" "t5-small" "t5" "train" "none"
                       "0.0001" "5" "557"))
       ["restaurant"; "attraction"; "taxi"] →
     r = "train").
Proof.
  split; [reflexivity|].
  exact (X14_fine_tune_after_train "save" "t5-small" "t5" "train" "none" "0.0001"
           "5" "557" "none" ["hotel"] ["restaurant"; "attraction"; "taxi"] eq_refl).
Defined.

Lemma X13_witness :
  check_only_domain "save/t5-small_except_domain_train" "none" = Ok "train" ∧
  "train" ≠ "none" ∧
  ("train" = "none" ∨
   ("train" ∈ fine_tune_domains ∧
    occurs_in "train" "save/t5-small_except_domain_train")).
Proof.
  split; [reflexivity|].
  exact (proj2 (X13_check_only_domain "save/t5-small_except_domain_train" "none")
           "train" eq_refl).
Defined.

Lemma fine_tune_ratio_file (fewshot seed suffix : string) :
  fine_tune_ratio fewshot seed +:+ suffix =
    "ratio_" +:+ fewshot +:+ "_seed_" +:+ seed +:+ suffix.
Proof.
  unfold fine_tune_ratio.
  change ("ratio_" +:+ fewshot +:+ "_seed_" +:+ seed)
    with ("ratio_" +:+ (fewshot +:+ ("_seed_" +:+ seed))).
  by rewrite !string_app_assoc.
Qed.

(** X15. When the assertion of fine_tune fails, nothing has been done yet:
    no data is prepared, no directory made, no file written.  When
    fine_tune ends normally, its three files carry the prefix
    "ratio_" + str(fewshot) + "_seed_" + str(seed). *)
Theorem X15_fine_tune_evaluate {Metric : Type}
    (evaluate_metrics : predictions_t → list string → pyresult (Metric * Metric * Metric))
    (prepare_data : string → list (list (example * string)) * list string)
    (results_exists : bool) (model_checkpoint only_domain fewshot seed : string) :
  (only_domain = "none" →
   Forall (λ d, ¬ occurs_in d model_checkpoint) fine_tune_domains →
   fine_tune_evaluate evaluate_metrics prepare_data results_exists
     model_checkpoint only_domain fewshot seed =
     ([], Raise (OtherError "AssertionError"))) ∧
  (∀ trace predictions,
     fine_tune_evaluate evaluate_metrics prepare_data results_exists
       model_checkpoint only_domain fewshot seed = (trace, Ok predictions) →
     dumped_files trace =
       ["ratio_" +:+ fewshot +:+ "_seed_" +:+ seed +:+ "_slot_acc.json";
        "ratio_" +:+ fewshot +:+ "_seed_" +:+ seed +:+ "_prediction.json";
        "ratio_" +:+ fewshot +:+ "_seed_" +:+ seed +:+ "_result.json"]).
Proof.
  unfold fine_tune_evaluate, check_only_domain, pick_only_domain. split.
  - intros -> Hall. rewrite pick_fold_none by done. by rewrite decide_False by auto.
  - intros trace predictions. case_decide; [|done].
    destruct (prepare_data _) as [test_loader ALL_SLOTS].
    unfold evaluate_model.
    destruct (run_loader _ test_loader) as [[predictions0 slot_logger0]|]; [|done].
    destruct (finalize slot_logger0) as [slot_logger|]; [|done].
    destruct (evaluate_metrics predictions0 ALL_SLOTS) as [[[joint f1] turn_acc]|];
      [|done].
    intros [= <- <-]. rewrite <- !fine_tune_ratio_file.
    by destruct results_exists.
Qed.

Lemma X15_witness :
  "none" = "none" ∧
  Forall (λ d, ¬ occurs_in d "save/t5-small") fine_tune_domains ∧
  fine_tune_evaluate constant_metrics
    (λ _, ([[(ex_hotel_area, "east")]], ["hotel-area"])) false
    "save/t5-small" "none" "0.01" "557" =
    ([], Raise (OtherError "AssertionError")).
Proof.
  assert (Hall : Forall (λ d, ¬ occurs_in d "save/t5-small") fine_tune_domains).
  { repeat constructor; intros Ho; apply str_contains_spec in Ho; discriminate Ho. }
  split; [reflexivity|]. split; [exact Hall|].
  exact (proj1 (X15_fine_tune_evaluate constant_metrics
                  (λ _, ([[(ex_hotel_area, "east")]], ["hotel-area"])) false
                  "save/t5-small" "none" "0.01" "557") eq_refl Hall).
Defined.

(** * Properties of [validation_epoch_end] *)

Section validation_epoch_end_lemmas.
Context {Tensor Number : Type}.
Variable radd : Z → Tensor → Tensor.
Variable add : Tensor → Tensor → Tensor.
Variable div_int : Tensor → Z → Tensor.
Variable item : Tensor → Number.

Lemma sum_tensors_cons (x : Tensor) (l : list Tensor) :
  sum_tensors radd add (x :: l) = SumTensor (fold_left add l (radd 0 x)).
Proof.
  unfold sum_tensors. simpl. generalize (radd 0 x). clear x.
  induction l as [|y l IH]; intros t; simpl; [done | apply IH].
Qed.
End validation_epoch_end_lemmas.

(** X16. validation_epoch_end raises ZeroDivisionError exactly when outputs
    is empty (sum gives the integer 0, divided by the length 0).  On
    outputs that are not empty it returns, and the three reported values,
    under progress_bar, under log and at top level, are the same number:
    the item of (0 + first + ... + last) / len(outputs). *)
Theorem X16_validation_epoch_end {Tensor Number : Type}
    (radd : Z → Tensor → Tensor) (add : Tensor → Tensor → Tensor)
    (div_int : Tensor → Z → Tensor) (item : Tensor → Number)
    (outputs : list Tensor) :
  (outputs = [] ↔ ∃ e, validation_epoch_end radd add div_int item outputs = Raise e) ∧
  (outputs = [] →
   validation_epoch_end radd add div_int item outputs = Raise ZeroDivisionError) ∧
  (∀ x l, outputs = x :: l →
     ∃ v, v = item (div_int (fold_left add l (radd 0 x))
                      (Z.of_nat (length outputs))) ∧
          validation_epoch_end radd add div_int item outputs =
            Ok {| progress_bar_val_loss := v; log_val_loss := v; val_loss := v |}).
Proof.
  split; [|split].
  - destruct outputs as [|x l].
    + split; [intros _; by eexists | done].
    + unfold validation_epoch_end. rewrite sum_tensors_cons.
      split; [done | by intros [e ?]].
  - by intros ->.
  - intros x l ->. unfold validation_epoch_end. rewrite sum_tensors_cons.
    by eexists.
Qed.

Lemma X16_witness :
  validation_epoch_end (λ z t, z + t) Z.add Z.div id [] = Raise ZeroDivisionError ∧
  ∃ v, v = id (Z.div (fold_left Z.add [5; 6] (0 + 4)) (Z.of_nat (length [4; 5; 6]))) ∧
       validation_epoch_end (λ z t, z + t) Z.add Z.div id [4; 5; 6] =
         Ok {| progress_bar_val_loss := v; log_val_loss := v; val_loss := v |}.
Proof.
  split.
  - exact (proj1 (proj2 (X16_validation_epoch_end (λ z t, z + t) Z.add Z.div id []))
             eq_refl).
  - exact (proj2 (proj2 (X16_validation_epoch_end (λ z t, z + t) Z.add Z.div id
                           [4; 5; 6])) 4 [5; 6] eq_refl).
Defined.


(** * Properties of [create_sgd_slot_descriptions.py] *)

Section dict_update_lemmas.
Context {V : Type}.
Implicit Types (d : list (string * V)) (kvs : list (string * V)) (k : string).

Lemma dict_update_cons d (kv : string * V) kvs :
  dict_update d (kv :: kvs) = dict_update (dict_setitem d kv.1 kv.2) kvs.
Proof. reflexivity. Qed.

Lemma dict_update_app d kvs1 kvs2 :
  dict_update d (kvs1 ++ kvs2) = dict_update (dict_update d kvs1) kvs2.
Proof. unfold dict_update. by rewrite fold_left_app. Qed.

(** After a run of assignments a key holds what was assigned to it last. *)
Lemma dict_get_update d kvs k :
  dict_get (dict_update d kvs) k =
    match last (filter (λ kv, kv.1 = k) kvs) with
    | Some kv => Some kv.2
    | None => dict_get d k
    end.
Proof.
  revert d. induction kvs as [|[k0 v0] kvs IH]; intros d; [done|].
  rewrite dict_update_cons, IH, filter_cons. simpl.
  destruct (decide (k0 = k)) as [->|Hne].
  - destruct (filter (λ kv, kv.1 = k) kvs) as [|kv l] eqn:Hf; simpl.
    + by rewrite dict_get_setitem_eq.
    + by destruct (last (kv :: l)) eqn:Hl; [|apply last_None in Hl].
  - destruct (last _); [done|]. by rewrite dict_get_setitem_ne.
Qed.

(** The keys stay where they were first assigned. *)
Lemma dict_keys_update d kvs :
  dict_keys (dict_update d kvs) =
    fold_left (λ acc x, if decide (x ∈ acc) then acc else acc ++ [x]) kvs.*1
      (dict_keys d).
Proof.
  revert d. induction kvs as [|[k0 v0] kvs IH]; intros d; [done|].
  rewrite dict_update_cons, IH. simpl. f_equal.
  destruct (dict_get d k0) as [v|] eqn:Hg.
  - rewrite decide_True by (by eapply dict_get_Some_keys).
    by erewrite dict_keys_setitem_Some.
  - rewrite decide_False by (by apply dict_get_None).
    by rewrite dict_keys_setitem_None.
Qed.

(** Two dictionaries with the same keys, in the same order and without
    repetition, and the same value under every key are equal. *)
Lemma dict_ext d1 d2 :
  NoDup (dict_keys d1) →
  dict_keys d1 = dict_keys d2 →
  (∀ k, dict_get d1 k = dict_get d2 k) →
  d1 = d2.
Proof.
  unfold dict_keys. revert d2.
  induction d1 as [|[k1 v1] d1 IH]; intros [|[k2 v2] d2] Hnd Hk Hg; try done.
  rewrite !fmap_cons in Hk. injection Hk as -> Hk.
  rewrite fmap_cons in Hnd. apply NoDup_cons in Hnd as [Hk2 Hnd]. simpl in Hk2.
  pose proof (Hg k2) as Hg2. simpl in Hg2. rewrite !decide_True in Hg2 by done.
  injection Hg2 as ->. f_equal. apply IH; [done..|].
  intros k. specialize (Hg k). simpl in Hg.
  destruct (decide (k2 = k)) as [<-|Hne]; [|done].
  assert (H1 : dict_get d1 k2 = None) by (by apply dict_get_None).
  assert (H2 : dict_get d2 k2 = None).
  { apply dict_get_None. unfold dict_keys. by rewrite <- Hk. }
  by rewrite H1, H2.
Qed.
End dict_update_lemmas.

Lemma first_occ_fold_spec (l acc : list string) :
  NoDup acc →
  let r := fold_left (λ acc x, if decide (x ∈ acc) then acc else acc ++ [x]) l acc in
  NoDup r ∧ (∀ x, x ∈ r ↔ x ∈ acc ∨ x ∈ l).
Proof.
  revert acc. induction l as [|y l IH]; intros acc Hnd; simpl.
  - split; [done|]. intros x. rewrite elem_of_nil. tauto.
  - destruct (decide (y ∈ acc)) as [Hin|Hout].
    + destruct (IH acc Hnd) as [Hr Hx]. split; [done|].
      intros x. rewrite Hx, elem_of_cons. split; [tauto|].
      intros [?|[->|?]]; tauto.
    + destruct (IH (acc ++ [y])) as [Hr Hx].
      { apply NoDup_app. split; [done|]. split; [|apply NoDup_singleton].
        intros x Hx ->%list_elem_of_singleton. done. }
      split; [done|]. intros x.
      rewrite Hx, elem_of_app, list_elem_of_singleton, elem_of_cons. tauto.
Qed.

Lemma first_occ_fold_id (l acc : list string) :
  (∀ x, x ∈ l → x ∈ acc) →
  fold_left (λ acc x, if decide (x ∈ acc) then acc else acc ++ [x]) l acc = acc.
Proof.
  induction l as [|y l IH]; intros Hsub; [done|]. simpl.
  rewrite decide_True by (apply Hsub, list_elem_of_here).
  apply IH. intros x Hx. apply Hsub. by apply list_elem_of_further.
Qed.

Lemma py_for_app {S A : Type} (body : S → A → pyresult S) (l1 l2 : list A) (s : S) :
  py_for body (l1 ++ l2) s = s' ← py_for body l1 s; py_for body l2 s'.
Proof.
  revert s. induction l1 as [|x l1 IH]; intros s; simpl; [done|].
  destruct (body s x); simpl; [apply IH | done].
Qed.

Section sgd.
Implicit Types (sv : service) (slot_desc : slot_desc_t).

(** Lines 11-17 on index [i]. *)
Lemma add_slot_eq sv slot_desc (i : nat) :
  add_slot sv slot_desc i =
    match slot_at sv i with
    | Some kv => Ok (dict_setitem slot_desc kv.1 kv.2)
    | None => Raise IndexError
    end.
Proof.
  unfold add_slot, slot_at, list_getitem.
  destruct (name (slots sv) !! i); simpl; [|done].
  destruct (description (slots sv) !! i); simpl; [|done].
  by destruct (possible_values (slots sv) !! i).
Qed.

Lemma slot_at_is_Some sv (i : nat) :
  is_Some (slot_at sv i) ↔
  (i < length (name (slots sv)))%nat ∧
  (i < length (description (slots sv)))%nat ∧
  (i < length (possible_values (slots sv)))%nat.
Proof.
  unfold slot_at. rewrite <- !lookup_lt_is_Some.
  destruct (name (slots sv) !! i) as [nm|]; simpl.
  2: { split; [by intros ?%is_Some_None | by intros [?%is_Some_None _]]. }
  destruct (description (slots sv) !! i) as [d|]; simpl.
  2: { split; [by intros ?%is_Some_None | by intros (_ & ?%is_Some_None & _)]. }
  destruct (possible_values (slots sv) !! i) as [vals|]; simpl.
  2: { split; [by intros ?%is_Some_None | by intros (_ & _ & ?%is_Some_None)]. }
  split; [intros _ | intros _]; eauto.
Qed.

Lemma py_for_add_slot sv slot_desc (indices : list nat) :
  py_for (add_slot sv) indices slot_desc =
    if decide (Forall (λ i, is_Some (slot_at sv i)) indices)
    then Ok (dict_update slot_desc (omap (slot_at sv) indices))
    else Raise IndexError.
Proof.
  revert slot_desc. induction indices as [|i indices IH]; intros slot_desc.
  - by rewrite decide_True.
  - simpl. rewrite add_slot_eq. destruct (slot_at sv i) as [kv|] eqn:Hi; simpl.
    + rewrite IH. destruct (decide (Forall _ indices)) as [Hall|Hn].
      * rewrite decide_True by (constructor; [by rewrite Hi|done]). done.
      * rewrite decide_False; [done|]. by intros [_ ?]%Forall_cons.
    + rewrite decide_False; [done|]. intros [Hs _]%Forall_cons.
      rewrite Hi in Hs. by eapply is_Some_None.
Qed.

Lemma columns_ok_Forall sv :
  columns_ok sv ↔
  Forall (λ i, is_Some (slot_at sv i))
    (seq 0 (length (is_categorical (slots sv)))).
Proof.
  unfold columns_ok. rewrite Forall_forall. split.
  - intros (H1 & H2 & H3) i Hi. apply elem_of_seq in Hi.
    apply slot_at_is_Some. lia.
  - intros Hall.
    destruct (length (is_categorical (slots sv))) as [|n] eqn:Hn; [lia|].
    assert (Hi : n ∈ seq 0 (S n)) by (apply elem_of_seq; lia).
    apply Hall, slot_at_is_Some in Hi. lia.
Qed.

Lemma add_service_eq slot_desc sv :
  add_service slot_desc sv =
    if decide (columns_ok sv)
    then Ok (dict_update slot_desc (service_entries sv))
    else Raise IndexError.
Proof.
  unfold add_service. rewrite py_for_add_slot.
  destruct (decide (columns_ok sv)) as [Hok|Hn].
  - by rewrite decide_True by (by apply columns_ok_Forall).
  - by rewrite decide_False by (by rewrite <- columns_ok_Forall).
Qed.

Lemma add_dataset_eq slot_desc (dataset : list service) :
  add_dataset slot_desc dataset =
    if decide (Forall columns_ok dataset)
    then Ok (dict_update slot_desc (concat (service_entries <$> dataset)))
    else Raise IndexError.
Proof.
  unfold add_dataset. revert slot_desc.
  induction dataset as [|sv dataset IH]; intros slot_desc.
  - by rewrite decide_True.
  - simpl. rewrite add_service_eq. destruct (decide (columns_ok sv)) as [Hok|Hn].
    + rewrite bind_Ok, IH. destruct (decide (Forall _ dataset)) as [Hall|Hn].
      * rewrite decide_True by (by constructor). by rewrite dict_update_app.
      * rewrite decide_False; [done|]. by intros [_ ?]%Forall_cons.
    + rewrite decide_False; [done|]. by intros [? _]%Forall_cons.
Qed.

Lemma py_for_add_dataset slot_desc (datasets : list (list service)) :
  py_for add_dataset datasets slot_desc =
    if decide (Forall columns_ok (concat datasets))
    then Ok (dict_update slot_desc (all_entries datasets))
    else Raise IndexError.
Proof.
  unfold all_entries. revert slot_desc.
  induction datasets as [|dataset datasets IH]; intros slot_desc.
  - by rewrite decide_True.
  - simpl. rewrite add_dataset_eq.
    destruct (decide (Forall columns_ok dataset)) as [Hok|Hn].
    + rewrite bind_Ok, IH. destruct (decide (Forall _ (concat datasets))) as [Hall|Hn].
      * rewrite decide_True by (by apply Forall_app).
        by rewrite fmap_app, concat_app, dict_update_app.
      * rewrite decide_False; [done|]. by intros [_ ?]%Forall_app.
    + rewrite decide_False; [done|]. by intros [? _]%Forall_app.
Qed.
End sgd.

(** X17. The script fails, with IndexError and before anything is written,
    exactly when some service has a name, description or possible_values
    column shorter than its is_categorical column. *)
Theorem X17_main_columns (datasets : list (list service)) :
  (Forall columns_ok (concat datasets) ↔ ∃ out, main datasets = Ok out) ∧
  (¬ Forall columns_ok (concat datasets) → main datasets = Raise IndexError).
Proof.
  unfold main, build_slot_desc. rewrite py_for_add_dataset.
  destruct (decide (Forall columns_ok (concat datasets))) as [Hok|Hn].
  - split; [|done]. split; [intros _; by eexists | done].
  - split; [|done]. split; [done | by intros [out ?]].
Qed.

Lemma X17_witness :
  ¬ Forall columns_ok (concat [[sv_hotels; sv_hotels_short]]) ∧
  main [[sv_hotels; sv_hotels_short]] = Raise IndexError.
Proof.
  assert (Hn : ¬ Forall columns_ok (concat [[sv_hotels; sv_hotels_short]])).
  { intros Hall. apply Forall_cons in Hall as [_ Hall].
    apply Forall_cons in Hall as [(_ & Hd & _) _]. simpl in Hd. lia. }
  split; [exact Hn | exact (proj2 (X17_main_columns _) Hn)].
Defined.

(** X18. When the script goes through, it writes ./utils/slot_description.json
    with one key service_name + "-" + name per distinct such string; the
    keys stand in the order in which they first came up, and each holds the
    description and the values of the slot that produced it last, in the
    order of the splits, the services and the indices. *)
Theorem X18_main_last_write (datasets : list (list service)) :
  Forall columns_ok (concat datasets) →
  ∃ slot_desc,
    main datasets = Ok ("./utils/slot_description.json", slot_desc) ∧
    NoDup (dict_keys slot_desc) ∧
    dict_keys slot_desc = first_occurrences (all_entries datasets).*1 ∧
    ∀ k, dict_get slot_desc k =
           snd <$> last (filter (λ kv, kv.1 = k) (all_entries datasets)).
Proof.
  intros Hok. unfold main, build_slot_desc.
  rewrite py_for_add_dataset, decide_True by done.
  eexists. split; [done|].
  assert (Hk : dict_keys (dict_update ([] : slot_desc_t) (all_entries datasets)) =
               first_occurrences (all_entries datasets).*1)
    by apply dict_keys_update.
  split; [|split; [done|]].
  - rewrite Hk. by apply (first_occ_fold_spec _ []), NoDup_nil_2.
  - intros k. rewrite dict_get_update. by destruct (last _).
Qed.

Lemma X18_witness :
  Forall columns_ok (concat [[sv_hotels]; [sv_hotels]]) ∧
  ∃ slot_desc,
    main [[sv_hotels]; [sv_hotels]] =
      Ok ("./utils/slot_description.json", slot_desc) ∧
    NoDup (dict_keys slot_desc) ∧
    dict_keys slot_desc = first_occurrences (all_entries [[sv_hotels]; [sv_hotels]]).*1 ∧
    ∀ k, dict_get slot_desc k =
           snd <$> last (filter (λ kv, kv.1 = k)
                           (all_entries [[sv_hotels]; [sv_hotels]])).
Proof.
  assert (Hok : Forall columns_ok (concat [[sv_hotels]; [sv_hotels]])).
  { repeat constructor; simpl; lia. }
  split; [exact Hok | exact (X18_main_last_write _ Hok)].
Defined.

(** X19. Going through the same splits twice gives the document that going
    through them once gives: the services that the splits repeat leave no
    trace, neither in the entries nor in their order. *)
Theorem X19_main_repeated (datasets : list (list service)) :
  Forall columns_ok (concat datasets) →
  main (datasets ++ datasets) = main datasets.
Proof.
  intros Hok. unfold main, build_slot_desc.
  rewrite py_for_app, (py_for_add_dataset []), decide_True, bind_Ok by done.
  rewrite py_for_add_dataset, decide_True, !bind_Ok by done.
  do 2 f_equal.
  set (d1 := dict_update ([] : slot_desc_t) (all_entries datasets)).
  assert (Hk1 : dict_keys d1 = first_occurrences (all_entries datasets).*1)
    by apply dict_keys_update.
  destruct (first_occ_fold_spec (all_entries datasets).*1 [] (NoDup_nil_2 : NoDup ([] : list string)))
    as [Hnd Hmem].
  fold (first_occurrences (all_entries datasets).*1) in Hnd, Hmem.
  symmetry. apply dict_ext.
  - by rewrite Hk1.
  - rewrite dict_keys_update. symmetry. apply first_occ_fold_id.
    intros x Hx. rewrite Hk1. apply Hmem. by right.
  - intros k. rewrite dict_get_update.
    destruct (last (filter (λ kv, kv.1 = k) (all_entries datasets))) as [kv|] eqn:Hl;
      [|done].
    unfold d1. by rewrite dict_get_update, Hl.
Qed.

Lemma X19_witness :
  Forall columns_ok (concat [[sv_hotels]]) ∧
  main ([[sv_hotels]] ++ [[sv_hotels]]) = main [[sv_hotels]].
Proof.
  assert (Hok : Forall columns_ok (concat [[sv_hotels]])).
  { repeat constructor; simpl; lia. }
  split; [exact Hok | exact (X19_main_repeated _ Hok)].
Defined.
